(** * Retirement calculator: the withdrawal-policy simulation engine

    A shallow embedding of the [Simulation] object of the retirement
    calculator (the engine copied into the test suites of the repository) and
    the properties its specification states about it.

    Numbers.  JavaScript numbers are IEEE doubles; here they are idealised as
    exact rationals ([Q]), so every statement below is about the arithmetic the
    code writes down, not about rounding.  Ages and year counts are integers
    ([Z], [nat]).  The one division whose divisor can be zero --- the
    guardrail rate [withdrawal / portfolioStart] --- is modelled with the
    JavaScript outcomes [Infinity], [-Infinity] and [NaN] ([JsNum]).  Its
    outcome depends on the sign of a zero divisor, and the code does produce
    a balance of [-0] (a balance clamped to 0 times a return below -100%), so
    the loop state carries the sign of a zero balance beside its value.  No
    other operation of the code tells [-0] from [0], and elsewhere the two
    are one number.  Inputs are finite, and no input is [-0].  A field the
    code reads through [x || 0] or [x && x > 0] may be missing from the input
    object and is an [option]. *)

From Stdlib Require Import QArith Qabs Qpower Qround ZArith List Bool Lia Lqa Psatz.
Import ListNotations.

Local Open Scope Q_scope.

(** ** JavaScript arithmetic on idealised numbers *)

Module Js.

(** [a < b], [a <= b] and [a > b] as the booleans the code branches on. *)
Definition ltb (a b : Q) : bool := negb (Qle_bool b a).
Definition leb (a b : Q) : bool := Qle_bool a b.
Definition gtb (a b : Q) : bool := ltb b a.

(** [Math.max(a, b)] and [Math.min(a, b)]. *)
Definition max (a b : Q) : Q := if leb a b then b else a.
Definition min (a b : Q) : Q := if leb a b then a else b.

(** [Math.pow(b, n)] for an integer exponent. *)
Definition pow (b : Q) (n : Z) : Q := Qpower b n.

(** [x || 0] on a field that may be missing. *)
Definition orZero (x : option Q) : Q :=
  match x with Some q => q | None => 0 end.

(** [x && x > 0] used as a condition. *)
Definition isPositive (x : option Q) : bool :=
  match x with Some q => gtb q 0 | None => false end.

(** The value of a division whose divisor may be zero. *)
Inductive JsNum : Type :=
| Fin (q : Q)
| PosInf
| NegInf
| NaN.

(** [a / b].  A zero divisor has a sign: [negativeZero] tells that [b] is
    [-0], and then the infinite quotients change sign; [0 / 0] is [NaN]
    whatever the signs. *)
Definition div (a b : Q) (negativeZero : bool) : JsNum :=
  if Qeq_bool b 0 then
    (if gtb a 0 then (if negativeZero then NegInf else PosInf)
     else if ltb a 0 then (if negativeZero then PosInf else NegInf)
     else NaN)
  else Fin (a / b).

(** [x * k] for a positive constant [k]. *)
Definition scale (x : JsNum) (k : Q) : JsNum :=
  match x with Fin q => Fin (q * k) | other => other end.

(** [x > c] and [x < c] against a finite number; every comparison with
    [NaN] is false. *)
Definition num_gtb (x : JsNum) (c : Q) : bool :=
  match x with
  | Fin q => gtb q c
  | PosInf => true
  | NegInf | NaN => false
  end.

Definition num_ltb (x : JsNum) (c : Q) : bool :=
  match x with
  | Fin q => ltb q c
  | NegInf => true
  | PosInf | NaN => false
  end.

End Js.

(** ** The entropy source

    [randomNormal] draws from the global [Math.random].  It is modelled at
    the level of the deviate it returns: the source holds the sequence of
    deviates successive calls produce, and a call consumes one of them. *)

Record Entropy : Type := {
  tape : nat -> Q;
  cursor : nat
}.

Definition randomNormal (e : Entropy) : Q * Entropy :=
  (tape e (cursor e), {| tape := tape e; cursor := S (cursor e) |}).

Definition generateReturn (mean volatility : Q) (deterministic : bool)
  (e : Entropy) : Q * Entropy :=
  if deterministic then (mean / 100, e)
  else
    let (z, e') := randomNormal e in
    ((mean + z * volatility) / 100, e').

(** ** Lookup tables *)

Definition lifeExpectancy (age : Z) : Z :=
  if (age <? 60)%Z then (95 - age)%Z
  else if (age <? 70)%Z then (90 - age)%Z
  else if (age <? 80)%Z then (87 - age)%Z
  else if (age <? 90)%Z then (94 - age)%Z
  else Z.max 2 (100 - age).

Definition vpwPercentage (yearsRemaining : Z) (stockAllocation : Q) : Q :=
  if (30 <=? yearsRemaining)%Z then 3 + stockAllocation * (2 # 100)
  else if (25 <=? yearsRemaining)%Z then (35 # 10) + stockAllocation * (2 # 100)
  else if (20 <=? yearsRemaining)%Z then 4 + stockAllocation * (25 # 1000)
  else if (15 <=? yearsRemaining)%Z then 5 + stockAllocation * (3 # 100)
  else if (10 <=? yearsRemaining)%Z then (65 # 10) + stockAllocation * (35 # 1000)
  else if (5 <=? yearsRemaining)%Z then 9 + stockAllocation * (4 # 100)
  else Js.min 100 (20 + inject_Z yearsRemaining * 2).

(** ** Data model *)

Record SimulationInputs : Type := {
  retirementAge : Z;
  planningAge : Z;
  startingPortfolio : Q;
  expectedReturn : Q;
  volatility : Q;
  inflationRate : Q;
  socialSecurity : Q;
  ssStartAge : Z;
  oneTimeExpense : option Q;
  minSpending : option Q;
  maxSpending : option Q;
  startingWithdrawal : option Q
}.

(** One element of [yearResults].  The strategies push objects with
    different diagnostic keys; a key a strategy does not write is [None]. *)
Module Year.
Record t : Type := {
  year : nat;
  age : Z;
  portfolioStart : Q;
  returnPct : Q;
  withdrawal : Q;
  portfolioEnd : Q;
  ruined : bool;
  ssReceived : option Q;
  baseWithdrawal : option Q;
  targetWithdrawal : option Q;
  vpwPct : option Q;
  lifeExp : option Z;
  rmdWithdrawal : option Q;
  currentRate : option Js.JsNum
}.

(** The object literal a strategy pushes: the keys every strategy writes,
    then the diagnostic keys ([None] where the literal has no such key). *)
Definition make (i : nat) (a : Z) (pStart ret net pEnd : Q)
  (ss base target vpw : option Q) (le : option Z) (rmd : option Q)
  (rate : option Js.JsNum) : t :=
  {| year := i; age := a; portfolioStart := pStart; returnPct := ret * 100;
     withdrawal := net; portfolioEnd := pEnd; ruined := Js.leb pEnd 0;
     ssReceived := ss; baseWithdrawal := base; targetWithdrawal := target;
     vpwPct := vpw; lifeExp := le; rmdWithdrawal := rmd;
     currentRate := rate |}.
End Year.

(** The object a strategy returns. *)
Module Result.
Record t : Type := {
  years : list Year.t;
  finalBalance : Q;
  totalWithdrawals : Q;
  ruined : bool;
  ruinAge : option Z
}.
End Result.

(** The local variables a strategy's [for] loop updates.  Only constant real
    and guardrails have a [withdrawal] variable; the other strategies leave
    the field as it is.  [portfolio] is the value of the variable of that
    name and [negativeZero] the sign of that value when it is zero: true
    when the variable holds [-0]. *)
Module Loop.
Record state : Type := {
  portfolio : Q;
  negativeZero : bool;
  withdrawal : Q;
  yearResults : list Year.t;
  ruined : bool;
  ruinAge : option Z
}.
End Loop.

(** ** The year loop *)

(** [for (let i = 0; i < years; i++) body]: [n] iterations from index [i]. *)
Fixpoint forLoop (body : nat -> Loop.state -> Entropy -> Loop.state * Entropy)
  (n i : nat) (st : Loop.state) (e : Entropy) : Loop.state * Entropy :=
  match n with
  | O => (st, e)
  | S n' => let (st', e') := body i st e in forLoop body n' (S i) st' e'
  end.

(** [if (!ruined) { ruined = true; ruinAge = age; }] on the pair of flags. *)
Definition markRuined (flags : bool * option Z) (age : Z) : bool * option Z :=
  if fst flags then flags else (true, Some age).

(** The lines every strategy repeats once [netWithdrawal] is known: take the
    withdrawal, clamp an overdraft to zero, apply the year's return, push the
    record, flag a depleted balance.  [record] gets the return and the closing
    balance and fills in the strategy's keys; [carried] is the value of the
    [withdrawal] variable the next iteration starts from.

    The sign of a zero balance follows the three assignments.  The net
    withdrawal is [Math.max(0, _) + _], never [-0], so [portfolio -=
    netWithdrawal] leaves [-0] only as [-0 - 0]; the clamp assigns the
    literal [0]; [1 + returnPct] is never [-0], so the product [portfolio *=
    (1 + returnPct)], when it is zero, is [-0] exactly when one of the
    factors is negative or [-0] and the other is not. *)
Definition closeYear (inputs : SimulationInputs) (deterministic : bool)
  (age : Z) (netWithdrawal : Q) (record : Q -> Q -> Year.t) (carried : Q)
  (st : Loop.state) (e : Entropy) : Loop.state * Entropy :=
  let portfolio := Loop.portfolio st - netWithdrawal in
  let negativeZero :=
    Loop.negativeZero st && Qeq_bool (Loop.portfolio st) 0
    && Qeq_bool netWithdrawal 0 in
  let overdrawn := Js.ltb portfolio 0 in
  let portfolio := if overdrawn then 0 else portfolio in
  let negativeZero := if overdrawn then false else negativeZero in
  let flags := (Loop.ruined st, Loop.ruinAge st) in
  let flags := if overdrawn then markRuined flags age else flags in
  let (returnPct, e') :=
    generateReturn (expectedReturn inputs) (volatility inputs) deterministic e in
  let negativeZero :=
    Qeq_bool (portfolio * (1 + returnPct)) 0
    && xorb negativeZero (Js.ltb (1 + returnPct) 0) in
  let portfolio := portfolio * (1 + returnPct) in
  let yearResults := Loop.yearResults st ++ [record returnPct portfolio] in
  let flags :=
    if Js.leb portfolio 0 && negb (fst flags) then (true, Some age) else flags in
  ({| Loop.portfolio := portfolio;
      Loop.negativeZero := negativeZero;
      Loop.withdrawal := carried;
      Loop.yearResults := yearResults;
      Loop.ruined := fst flags;
      Loop.ruinAge := snd flags |}, e').

(** [yearResults.reduce((sum, y) => sum + y.withdrawal, 0)]. *)
Definition sumWithdrawals (l : list Year.t) : Q :=
  fold_left (fun sum y => sum + Year.withdrawal y) l 0.

(** The object built after the loop. *)
Definition finish (st : Loop.state) : Result.t :=
  {| Result.years := Loop.yearResults st;
     Result.finalBalance := Loop.portfolio st;
     Result.totalWithdrawals := sumWithdrawals (Loop.yearResults st);
     Result.ruined := Loop.ruined st;
     Result.ruinAge := Loop.ruinAge st |}.

(** Expressions every strategy computes the same way. *)
Definition horizon (inputs : SimulationInputs) : nat :=
  Z.to_nat (planningAge inputs - retirementAge inputs).

Definition inflationMultiplier (inputs : SimulationInputs) : Q :=
  1 + inflationRate inputs / 100.

Definition ageAt (inputs : SimulationInputs) (i : nat) : Z :=
  (retirementAge inputs + Z.of_nat i)%Z.

Definition oneTimeExpenseThisYear (inputs : SimulationInputs) (i : nat) : Q :=
  let isExpenseYear := ((Z.of_nat i + 1) mod 5 =? 0)%Z in
  if isExpenseYear
  then Js.orZero (oneTimeExpense inputs)
       * Js.pow (inflationMultiplier inputs) (Z.of_nat i)
  else 0.

Definition ssAt (inputs : SimulationInputs) (age : Z) : Q :=
  let ssYearsReceiving := Z.max 0 (age - ssStartAge inputs) in
  if (ssStartAge inputs <=? age)%Z
  then socialSecurity inputs * Js.pow (inflationMultiplier inputs) ssYearsReceiving
  else 0.

Definition inflationAdjustedMinSpending (inputs : SimulationInputs) (i : nat) : Q :=
  Js.orZero (minSpending inputs) * Js.pow (inflationMultiplier inputs) (Z.of_nat i).

(** [baseMaxSpending > 0 ? baseMaxSpending * Math.pow(m, i) : Infinity];
    [None] is [Infinity]. *)
Definition inflationAdjustedMaxSpending (inputs : SimulationInputs) (i : nat)
  : option Q :=
  let baseMaxSpending := Js.orZero (maxSpending inputs) in
  if Js.gtb baseMaxSpending 0
  then Some (baseMaxSpending * Js.pow (inflationMultiplier inputs) (Z.of_nat i))
  else None.

(** [Math.min(x, ceiling)] with a ceiling that may be [Infinity]. *)
Definition minCeiling (x : Q) (ceiling : option Q) : Q :=
  match ceiling with Some c => Js.min x c | None => x end.

Definition netOf (inputs : SimulationInputs) (i : nat) (target : Q) : Q :=
  Js.max 0 (target - ssAt inputs (ageAt inputs i)) + oneTimeExpenseThisYear inputs i.

(** ** The five strategies (the engine of the comprehensive test suite) *)

Definition initialState (inputs : SimulationInputs) (withdrawal : Q) : Loop.state :=
  {| Loop.portfolio := startingPortfolio inputs;
     Loop.negativeZero := false;
     Loop.withdrawal := withdrawal;
     Loop.yearResults := [];
     Loop.ruined := false;
     Loop.ruinAge := None |}.

(** *** Constant real *)

Definition initConstantReal (inputs : SimulationInputs) : Loop.state :=
  let initialRate := 45 # 10 in
  let baseWithdrawal :=
    if Js.isPositive (startingWithdrawal inputs)
    then Js.orZero (startingWithdrawal inputs)
    else startingPortfolio inputs * (initialRate / 100) in
  let initialWithdrawal := Js.max baseWithdrawal (Js.orZero (minSpending inputs)) in
  let initialWithdrawal :=
    if Js.isPositive (maxSpending inputs)
    then Js.min initialWithdrawal (Js.orZero (maxSpending inputs))
    else initialWithdrawal in
  initialState inputs initialWithdrawal.

Definition bodyConstantReal (inputs : SimulationInputs) (deterministic : bool)
  (i : nat) (st : Loop.state) (e : Entropy) : Loop.state * Entropy :=
  let inflationMultiplier := inflationMultiplier inputs in
  let baseMaxSpending := Js.orZero (maxSpending inputs) in
  let age := ageAt inputs i in
  let portfolioStart := Loop.portfolio st in
  let withdrawal :=
    if Js.gtb baseMaxSpending 0
    then Js.min (Loop.withdrawal st)
           (baseMaxSpending * Js.pow inflationMultiplier (Z.of_nat i))
    else Loop.withdrawal st in
  let ss := ssAt inputs age in
  let netWithdrawal := netOf inputs i withdrawal in
  closeYear inputs deterministic age netWithdrawal
    (fun returnPct portfolio =>
       Year.make i age portfolioStart returnPct netWithdrawal portfolio
         (Some ss) (Some withdrawal) None None None None None)
    (withdrawal * inflationMultiplier) st e.

Definition strategyConstantReal (inputs : SimulationInputs) (deterministic : bool)
  (e : Entropy) : Result.t * Entropy :=
  let (st, e') :=
    forLoop (bodyConstantReal inputs deterministic) (horizon inputs) 0
      (initConstantReal inputs) e in
  (finish st, e').

(** *** Constant percent *)

(** The year-1 override the three portfolio-driven strategies share:
    [i === 0 && baseStartingWithdrawal > 0 ? baseStartingWithdrawal : natural]. *)
Definition year1Override (inputs : SimulationInputs) (i : nat) (natural : Q) : Q :=
  let baseStartingWithdrawal := Js.orZero (startingWithdrawal inputs) in
  if Nat.eqb i 0 && Js.gtb baseStartingWithdrawal 0
  then baseStartingWithdrawal
  else natural.

(** [Math.max(t, floor)] then [Math.min(t, ceiling)]. *)
Definition clampSpending (inputs : SimulationInputs) (i : nat) (t : Q) : Q :=
  let t := Js.max t (inflationAdjustedMinSpending inputs i) in
  minCeiling t (inflationAdjustedMaxSpending inputs i).

Definition bodyConstantPercent (inputs : SimulationInputs) (deterministic : bool)
  (i : nat) (st : Loop.state) (e : Entropy) : Loop.state * Entropy :=
  let withdrawalRate := 4 in
  let age := ageAt inputs i in
  let portfolioStart := Loop.portfolio st in
  let targetWithdrawal :=
    year1Override inputs i (Loop.portfolio st * (withdrawalRate / 100)) in
  let targetWithdrawal := clampSpending inputs i targetWithdrawal in
  let netWithdrawal := netOf inputs i targetWithdrawal in
  closeYear inputs deterministic age netWithdrawal
    (fun returnPct portfolio =>
       Year.make i age portfolioStart returnPct netWithdrawal portfolio
         None None (Some targetWithdrawal) None None None None)
    (Loop.withdrawal st) st e.

Definition strategyConstantPercent (inputs : SimulationInputs)
  (deterministic : bool) (e : Entropy) : Result.t * Entropy :=
  let (st, e') :=
    forLoop (bodyConstantPercent inputs deterministic) (horizon inputs) 0
      (initialState inputs 0) e in
  (finish st, e').

(** *** Variable percentage withdrawal *)

Definition bodyVPW (inputs : SimulationInputs) (deterministic : bool)
  (i : nat) (st : Loop.state) (e : Entropy) : Loop.state * Entropy :=
  let age := ageAt inputs i in
  let portfolioStart := Loop.portfolio st in
  let yearsRemaining := (planningAge inputs - age)%Z in
  let vpwPct := vpwPercentage yearsRemaining 60 in
  let vpwWithdrawal := Loop.portfolio st * (vpwPct / 100) in
  let targetWithdrawal := year1Override inputs i vpwWithdrawal in
  let targetWithdrawal := clampSpending inputs i targetWithdrawal in
  let netWithdrawal := netOf inputs i targetWithdrawal in
  closeYear inputs deterministic age netWithdrawal
    (fun returnPct portfolio =>
       Year.make i age portfolioStart returnPct netWithdrawal portfolio
         None None (Some targetWithdrawal) (Some vpwPct) None None None)
    (Loop.withdrawal st) st e.

Definition strategyVPW (inputs : SimulationInputs) (deterministic : bool)
  (e : Entropy) : Result.t * Entropy :=
  let (st, e') :=
    forLoop (bodyVPW inputs deterministic) (horizon inputs) 0
      (initialState inputs 0) e in
  (finish st, e').

(** *** Guardrails *)

Definition upperGuardrail : Q := 5 * (120 # 100).
Definition lowerGuardrail : Q := 5 * (80 # 100).
Definition adjustmentFactor : Q := 10 # 100.

Definition initGuardrails (inputs : SimulationInputs) : Loop.state :=
  let initialRate := 5 in
  let baseMinSpending := Js.orZero (minSpending inputs) in
  let baseMaxSpending := Js.orZero (maxSpending inputs) in
  let baseWithdrawal :=
    if Js.isPositive (startingWithdrawal inputs)
    then Js.orZero (startingWithdrawal inputs)
    else startingPortfolio inputs * (initialRate / 100) in
  let withdrawal := Js.max baseWithdrawal baseMinSpending in
  let withdrawal :=
    if Js.gtb baseMaxSpending 0 then Js.min withdrawal baseMaxSpending
    else withdrawal in
  initialState inputs withdrawal.

(** The guardrail test of one year on the carried [withdrawal]. *)
Definition applyGuardrails (inputs : SimulationInputs) (i : nat)
  (currentRate : Js.JsNum) (portfolio withdrawal : Q) : Q :=
  let skipGuardrailsYear1 :=
    Nat.eqb i 0 && Js.isPositive (startingWithdrawal inputs) in
  if negb skipGuardrailsYear1 then
    if Js.num_gtb currentRate upperGuardrail
    then withdrawal * (1 - adjustmentFactor)
    else if Js.num_ltb currentRate lowerGuardrail && Js.gtb portfolio 0
    then withdrawal * (1 + adjustmentFactor)
    else withdrawal
  else withdrawal.

Definition bodyGuardrails (inputs : SimulationInputs) (deterministic : bool)
  (i : nat) (st : Loop.state) (e : Entropy) : Loop.state * Entropy :=
  let inflationMultiplier := inflationMultiplier inputs in
  let age := ageAt inputs i in
  let portfolioStart := Loop.portfolio st in
  let currentRate :=
    Js.scale (Js.div (Loop.withdrawal st) portfolioStart (Loop.negativeZero st))
      100 in
  let withdrawal :=
    applyGuardrails inputs i currentRate (Loop.portfolio st) (Loop.withdrawal st) in
  let withdrawal := clampSpending inputs i withdrawal in
  let netWithdrawal := netOf inputs i withdrawal in
  closeYear inputs deterministic age netWithdrawal
    (fun returnPct portfolio =>
       Year.make i age portfolioStart returnPct netWithdrawal portfolio
         None (Some withdrawal) None None None None (Some currentRate))
    (withdrawal * inflationMultiplier) st e.

Definition strategyGuardrails (inputs : SimulationInputs) (deterministic : bool)
  (e : Entropy) : Result.t * Entropy :=
  let (st, e') :=
    forLoop (bodyGuardrails inputs deterministic) (horizon inputs) 0
      (initGuardrails inputs) e in
  (finish st, e').

(** *** Required minimum distribution *)

Definition bodyRMD (inputs : SimulationInputs) (deterministic : bool)
  (i : nat) (st : Loop.state) (e : Entropy) : Loop.state * Entropy :=
  let age := ageAt inputs i in
  let portfolioStart := Loop.portfolio st in
  let lifeExp := lifeExpectancy age in
  let rmdWithdrawal := Loop.portfolio st / inject_Z lifeExp in
  let targetWithdrawal := year1Override inputs i rmdWithdrawal in
  let targetWithdrawal := clampSpending inputs i targetWithdrawal in
  let netWithdrawal := netOf inputs i targetWithdrawal in
  closeYear inputs deterministic age netWithdrawal
    (fun returnPct portfolio =>
       Year.make i age portfolioStart returnPct netWithdrawal portfolio
         None None (Some targetWithdrawal) None (Some lifeExp)
         (Some rmdWithdrawal) None)
    (Loop.withdrawal st) st e.

Definition strategyRMD (inputs : SimulationInputs) (deterministic : bool)
  (e : Entropy) : Result.t * Entropy :=
  let (st, e') :=
    forLoop (bodyRMD inputs deterministic) (horizon inputs) 0
      (initialState inputs 0) e in
  (finish st, e').

(** *** The closed set of strategies *)

Inductive Strategy : Type :=
| ConstantReal
| ConstantPercent
| VPW
| Guardrails
| RMD.

Definition initOf (s : Strategy) (inputs : SimulationInputs) : Loop.state :=
  match s with
  | ConstantReal => initConstantReal inputs
  | Guardrails => initGuardrails inputs
  | ConstantPercent | VPW | RMD => initialState inputs 0
  end.

Definition bodyOf (s : Strategy) (inputs : SimulationInputs) (deterministic : bool)
  : nat -> Loop.state -> Entropy -> Loop.state * Entropy :=
  match s with
  | ConstantReal => bodyConstantReal inputs deterministic
  | ConstantPercent => bodyConstantPercent inputs deterministic
  | VPW => bodyVPW inputs deterministic
  | Guardrails => bodyGuardrails inputs deterministic
  | RMD => bodyRMD inputs deterministic
  end.

Definition run (s : Strategy) (inputs : SimulationInputs) (deterministic : bool)
  (e : Entropy) : Result.t * Entropy :=
  match s with
  | ConstantReal => strategyConstantReal inputs deterministic e
  | ConstantPercent => strategyConstantPercent inputs deterministic e
  | VPW => strategyVPW inputs deterministic e
  | Guardrails => strategyGuardrails inputs deterministic e
  | RMD => strategyRMD inputs deterministic e
  end.

(** *** The engine of the older test suite: its [strategyConstantReal]

    The older copy of the engine has neither the year-1 override nor the
    spending cap. *)

Module Part000.

Definition initConstantReal (inputs : SimulationInputs) : Loop.state :=
  let initialRate := 45 # 10 in
  let calculatedWithdrawal := startingPortfolio inputs * (initialRate / 100) in
  let initialWithdrawal :=
    Js.max calculatedWithdrawal (Js.orZero (minSpending inputs)) in
  initialState inputs initialWithdrawal.

Definition bodyConstantReal (inputs : SimulationInputs) (deterministic : bool)
  (i : nat) (st : Loop.state) (e : Entropy) : Loop.state * Entropy :=
  let inflationMultiplier := inflationMultiplier inputs in
  let age := ageAt inputs i in
  let portfolioStart := Loop.portfolio st in
  let withdrawal := Loop.withdrawal st in
  let ss := ssAt inputs age in
  let netWithdrawal := netOf inputs i withdrawal in
  closeYear inputs deterministic age netWithdrawal
    (fun returnPct portfolio =>
       Year.make i age portfolioStart returnPct netWithdrawal portfolio
         (Some ss) (Some withdrawal) None None None None None)
    (withdrawal * inflationMultiplier) st e.

Definition strategyConstantReal (inputs : SimulationInputs)
  (deterministic : bool) (e : Entropy) : Result.t * Entropy :=
  let (st, e') :=
    forLoop (bodyConstantReal inputs deterministic) (horizon inputs) 0
      (initConstantReal inputs) e in
  (finish st, e').

(** The other four strategies of the older suite: the floor is the only
    spending constraint. *)
Definition bodyConstantPercent (inputs : SimulationInputs) (deterministic : bool)
  (i : nat) (st : Loop.state) (e : Entropy) : Loop.state * Entropy :=
  let withdrawalRate := 4 in
  let age := ageAt inputs i in
  let portfolioStart := Loop.portfolio st in
  let percentWithdrawal := Loop.portfolio st * (withdrawalRate / 100) in
  let targetWithdrawal :=
    Js.max percentWithdrawal (inflationAdjustedMinSpending inputs i) in
  let netWithdrawal := netOf inputs i targetWithdrawal in
  closeYear inputs deterministic age netWithdrawal
    (fun returnPct portfolio =>
       Year.make i age portfolioStart returnPct netWithdrawal portfolio
         None None (Some targetWithdrawal) None None None None)
    (Loop.withdrawal st) st e.

Definition strategyConstantPercent (inputs : SimulationInputs)
  (deterministic : bool) (e : Entropy) : Result.t * Entropy :=
  let (st, e') :=
    forLoop (bodyConstantPercent inputs deterministic) (horizon inputs) 0
      (initialState inputs 0) e in
  (finish st, e').

Definition bodyVPW (inputs : SimulationInputs) (deterministic : bool)
  (i : nat) (st : Loop.state) (e : Entropy) : Loop.state * Entropy :=
  let age := ageAt inputs i in
  let portfolioStart := Loop.portfolio st in
  let yearsRemaining := (planningAge inputs - age)%Z in
  let vpwPct := vpwPercentage yearsRemaining 60 in
  let vpwWithdrawal := Loop.portfolio st * (vpwPct / 100) in
  let targetWithdrawal :=
    Js.max vpwWithdrawal (inflationAdjustedMinSpending inputs i) in
  let netWithdrawal := netOf inputs i targetWithdrawal in
  closeYear inputs deterministic age netWithdrawal
    (fun returnPct portfolio =>
       Year.make i age portfolioStart returnPct netWithdrawal portfolio
         None None (Some targetWithdrawal) (Some vpwPct) None None None)
    (Loop.withdrawal st) st e.

Definition strategyVPW (inputs : SimulationInputs) (deterministic : bool)
  (e : Entropy) : Result.t * Entropy :=
  let (st, e') :=
    forLoop (bodyVPW inputs deterministic) (horizon inputs) 0
      (initialState inputs 0) e in
  (finish st, e').

Definition initGuardrails (inputs : SimulationInputs) : Loop.state :=
  let initialRate := 5 in
  let baseMinSpending := Js.orZero (minSpending inputs) in
  let calculatedWithdrawal := startingPortfolio inputs * (initialRate / 100) in
  initialState inputs (Js.max calculatedWithdrawal baseMinSpending).

Definition bodyGuardrails (inputs : SimulationInputs) (deterministic : bool)
  (i : nat) (st : Loop.state) (e : Entropy) : Loop.state * Entropy :=
  let inflationMultiplier := inflationMultiplier inputs in
  let age := ageAt inputs i in
  let portfolioStart := Loop.portfolio st in
  let currentRate :=
    Js.scale (Js.div (Loop.withdrawal st) portfolioStart (Loop.negativeZero st))
      100 in
  let withdrawal :=
    if Js.num_gtb currentRate upperGuardrail
    then Loop.withdrawal st * (1 - adjustmentFactor)
    else if Js.num_ltb currentRate lowerGuardrail && Js.gtb (Loop.portfolio st) 0
    then Loop.withdrawal st * (1 + adjustmentFactor)
    else Loop.withdrawal st in
  let withdrawal := Js.max withdrawal (inflationAdjustedMinSpending inputs i) in
  let netWithdrawal := netOf inputs i withdrawal in
  closeYear inputs deterministic age netWithdrawal
    (fun returnPct portfolio =>
       Year.make i age portfolioStart returnPct netWithdrawal portfolio
         None (Some withdrawal) None None None None (Some currentRate))
    (withdrawal * inflationMultiplier) st e.

Definition strategyGuardrails (inputs : SimulationInputs) (deterministic : bool)
  (e : Entropy) : Result.t * Entropy :=
  let (st, e') :=
    forLoop (bodyGuardrails inputs deterministic) (horizon inputs) 0
      (initGuardrails inputs) e in
  (finish st, e').

Definition bodyRMD (inputs : SimulationInputs) (deterministic : bool)
  (i : nat) (st : Loop.state) (e : Entropy) : Loop.state * Entropy :=
  let age := ageAt inputs i in
  let portfolioStart := Loop.portfolio st in
  let lifeExp := lifeExpectancy age in
  let rmdWithdrawal := Loop.portfolio st / inject_Z lifeExp in
  let targetWithdrawal :=
    Js.max rmdWithdrawal (inflationAdjustedMinSpending inputs i) in
  let netWithdrawal := netOf inputs i targetWithdrawal in
  closeYear inputs deterministic age netWithdrawal
    (fun returnPct portfolio =>
       Year.make i age portfolioStart returnPct netWithdrawal portfolio
         None None (Some targetWithdrawal) None (Some lifeExp)
         (Some rmdWithdrawal) None)
    (Loop.withdrawal st) st e.

Definition strategyRMD (inputs : SimulationInputs) (deterministic : bool)
  (e : Entropy) : Result.t * Entropy :=
  let (st, e') :=
    forLoop (bodyRMD inputs deterministic) (horizon inputs) 0
      (initialState inputs 0) e in
  (finish st, e').

Definition run (s : Strategy) (inputs : SimulationInputs) (deterministic : bool)
  (e : Entropy) : Result.t * Entropy :=
  match s with
  | ConstantReal => strategyConstantReal inputs deterministic e
  | ConstantPercent => strategyConstantPercent inputs deterministic e
  | VPW => strategyVPW inputs deterministic e
  | Guardrails => strategyGuardrails inputs deterministic e
  | RMD => strategyRMD inputs deterministic e
  end.

End Part000.

(** *** The engine of the first test runner: its two strategies

    The first runner reads [inputs.oneTimeExpense] without a default and
    knows no spending constraint: its input object needs that key and no
    optional one. *)

Module TestRunner.

Module Inputs.
Record t : Type := {
  retirementAge : Z;
  planningAge : Z;
  startingPortfolio : Q;
  expectedReturn : Q;
  volatility : Q;
  inflationRate : Q;
  socialSecurity : Q;
  ssStartAge : Z;
  oneTimeExpense : Q
}.
End Inputs.

(** The same object as the later engines read it: the keys it lacks are
    missing. *)
Definition complete (inputs : Inputs.t) : SimulationInputs :=
  {| retirementAge := Inputs.retirementAge inputs;
     planningAge := Inputs.planningAge inputs;
     startingPortfolio := Inputs.startingPortfolio inputs;
     expectedReturn := Inputs.expectedReturn inputs;
     volatility := Inputs.volatility inputs;
     inflationRate := Inputs.inflationRate inputs;
     socialSecurity := Inputs.socialSecurity inputs;
     ssStartAge := Inputs.ssStartAge inputs;
     oneTimeExpense := Some (Inputs.oneTimeExpense inputs);
     minSpending := None;
     maxSpending := None;
     startingWithdrawal := None |}.

(** The object with the spending keys the later engines read beside it. *)
Definition withSpendingKeys (inputs : Inputs.t)
  (minSp maxSp start : option Q) : SimulationInputs :=
  {| retirementAge := Inputs.retirementAge inputs;
     planningAge := Inputs.planningAge inputs;
     startingPortfolio := Inputs.startingPortfolio inputs;
     expectedReturn := Inputs.expectedReturn inputs;
     volatility := Inputs.volatility inputs;
     inflationRate := Inputs.inflationRate inputs;
     socialSecurity := Inputs.socialSecurity inputs;
     ssStartAge := Inputs.ssStartAge inputs;
     oneTimeExpense := Some (Inputs.oneTimeExpense inputs);
     minSpending := minSp;
     maxSpending := maxSp;
     startingWithdrawal := start |}.

Definition initConstantReal (inputs : Inputs.t) : Loop.state :=
  let initialRate := 45 # 10 in
  let initialWithdrawal := Inputs.startingPortfolio inputs * (initialRate / 100) in
  initialState (complete inputs) initialWithdrawal.

Definition bodyConstantReal (inputs : Inputs.t) (deterministic : bool)
  (i : nat) (st : Loop.state) (e : Entropy) : Loop.state * Entropy :=
  let inflationMultiplier := 1 + Inputs.inflationRate inputs / 100 in
  let age := (Inputs.retirementAge inputs + Z.of_nat i)%Z in
  let portfolioStart := Loop.portfolio st in
  let withdrawal := Loop.withdrawal st in
  let isExpenseYear := ((Z.of_nat i + 1) mod 5 =? 0)%Z in
  let oneTimeExpenseThisYear :=
    if isExpenseYear
    then Inputs.oneTimeExpense inputs * Js.pow inflationMultiplier (Z.of_nat i)
    else 0 in
  let ss := ssAt (complete inputs) age in
  let netWithdrawal := Js.max 0 (withdrawal - ss) + oneTimeExpenseThisYear in
  closeYear (complete inputs) deterministic age netWithdrawal
    (fun returnPct portfolio =>
       Year.make i age portfolioStart returnPct netWithdrawal portfolio
         (Some ss) (Some withdrawal) None None None None None)
    (withdrawal * inflationMultiplier) st e.

Definition strategyConstantReal (inputs : Inputs.t) (deterministic : bool)
  (e : Entropy) : Result.t * Entropy :=
  let (st, e') :=
    forLoop (bodyConstantReal inputs deterministic)
      (Z.to_nat (Inputs.planningAge inputs - Inputs.retirementAge inputs)) 0
      (initConstantReal inputs) e in
  (finish st, e').

(** The runner's constant percent has no floor, and its records have no
    [targetWithdrawal] key. *)
Definition bodyConstantPercent (inputs : Inputs.t) (deterministic : bool)
  (i : nat) (st : Loop.state) (e : Entropy) : Loop.state * Entropy :=
  let withdrawalRate := 4 in
  let inflationMultiplier := 1 + Inputs.inflationRate inputs / 100 in
  let age := (Inputs.retirementAge inputs + Z.of_nat i)%Z in
  let portfolioStart := Loop.portfolio st in
  let isExpenseYear := ((Z.of_nat i + 1) mod 5 =? 0)%Z in
  let oneTimeExpenseThisYear :=
    if isExpenseYear
    then Inputs.oneTimeExpense inputs * Js.pow inflationMultiplier (Z.of_nat i)
    else 0 in
  let ss := ssAt (complete inputs) age in
  let targetWithdrawal := Loop.portfolio st * (withdrawalRate / 100) in
  let netWithdrawal := Js.max 0 (targetWithdrawal - ss) + oneTimeExpenseThisYear in
  closeYear (complete inputs) deterministic age netWithdrawal
    (fun returnPct portfolio =>
       Year.make i age portfolioStart returnPct netWithdrawal portfolio
         None None None None None None None)
    (Loop.withdrawal st) st e.

Definition strategyConstantPercent (inputs : Inputs.t) (deterministic : bool)
  (e : Entropy) : Result.t * Entropy :=
  let (st, e') :=
    forLoop (bodyConstantPercent inputs deterministic)
      (Z.to_nat (Inputs.planningAge inputs - Inputs.retirementAge inputs)) 0
      (initialState (complete inputs) 0) e in
  (finish st, e').

End TestRunner.

(** ** The percentile estimator *)

(** [sorted[i]] for an integer [i]: [undefined] ([None]) outside the array. *)
Definition elementAt (sorted : list Q) (i : Z) : option Q :=
  if (i <? 0)%Z then None else nth_error sorted (Z.to_nat i).

(** [percentile(sorted, p)].  An [undefined] element makes the sum [NaN]. *)
Definition percentile (sorted : list Q) (p : Q) : Js.JsNum :=
  if Nat.eqb (length sorted) 0 then Js.Fin 0
  else
    let index := (p / 100) * (inject_Z (Z.of_nat (length sorted)) - 1) in
    let lower := Qfloor index in
    let upper := Qceiling index in
    let weight := index - inject_Z lower in
    match elementAt sorted lower, elementAt sorted upper with
    | Some below, Some above => Js.Fin (below * (1 - weight) + above * weight)
    | _, _ => Js.NaN
    end.

(** ** Inputs used in examples *)

Module Sample.

(** An entropy source whose every deviate is [z], and the one of zeros. *)
Definition constant (z : Q) : Entropy := {| tape := fun _ => z; cursor := 0 |}.

Definition quiet : Entropy := constant 0.

(** [standardInputs] of the comprehensive test suite. *)
Definition standardInputs : SimulationInputs :=
  {| retirementAge := 45; planningAge := 95; startingPortfolio := 1500000;
     expectedReturn := 5; volatility := 15; inflationRate := 3;
     socialSecurity := 30000; ssStartAge := 67;
     oneTimeExpense := Some 0; minSpending := Some 150000;
     maxSpending := None; startingWithdrawal := None |}.

(** The input of the suite's test "100% volatility produces valid results":
    [standardInputs] with [volatility: 100] and [minSpending: 0]. *)
Definition volatileInputs : SimulationInputs :=
  {| retirementAge := 45; planningAge := 95; startingPortfolio := 1500000;
     expectedReturn := 5; volatility := 100; inflationRate := 3;
     socialSecurity := 30000; ssStartAge := 67;
     oneTimeExpense := Some 0; minSpending := Some 0;
     maxSpending := None; startingWithdrawal := None |}.

(** A plan from age 65 with no return, no inflation, no income and no
    spending constraint. *)
Definition flat (portfolio : Q) (years : Z) : SimulationInputs :=
  {| retirementAge := 65; planningAge := 65 + years;
     startingPortfolio := portfolio;
     expectedReturn := 0; volatility := 0; inflationRate := 0;
     socialSecurity := 0; ssStartAge := 70;
     oneTimeExpense := Some 0; minSpending := Some 0;
     maxSpending := Some 0; startingWithdrawal := None |}.

(** A five-year flat plan that overdraws in its third year: 100,000 spent
    40,000 a year. *)
Definition tightInputs : SimulationInputs :=
  {| retirementAge := 65; planningAge := 70; startingPortfolio := 100000;
     expectedReturn := 0; volatility := 0; inflationRate := 0;
     socialSecurity := 0; ssStartAge := 70;
     oneTimeExpense := Some 0; minSpending := Some 40000;
     maxSpending := None; startingWithdrawal := None |}.

(** A five-year flat plan with a negative one-time expense: a refund of
    100,000 in the fifth year. *)
Definition refundInputs (portfolio minSpend : Q) : SimulationInputs :=
  {| retirementAge := 65; planningAge := 70; startingPortfolio := portfolio;
     expectedReturn := 0; volatility := 0; inflationRate := 0;
     socialSecurity := 0; ssStartAge := 70;
     oneTimeExpense := Some (-100000); minSpending := Some minSpend;
     maxSpending := None; startingWithdrawal := None |}.

(** A ten-year plan whose prices change sign every year
    ([inflationRate: -200]). *)
Definition signFlipInputs (expense minSpend : Q) : SimulationInputs :=
  {| retirementAge := 65; planningAge := 75; startingPortfolio := 10000;
     expectedReturn := 0; volatility := 0; inflationRate := -200;
     socialSecurity := 0; ssStartAge := 80;
     oneTimeExpense := Some expense; minSpending := Some minSpend;
     maxSpending := None; startingWithdrawal := None |}.

(** The inputs of the suite's spending-constraint tests. *)
Definition spendingInputs (portfolio inflation ss : Q)
  (minSp maxSp start : option Q) : SimulationInputs :=
  {| retirementAge := 65; planningAge := 90; startingPortfolio := portfolio;
     expectedReturn := 5; volatility := 0; inflationRate := inflation;
     socialSecurity := ss; ssStartAge := 65;
     oneTimeExpense := Some 0; minSpending := minSp;
     maxSpending := maxSp; startingWithdrawal := start |}.

(** The input of the first runner's one-time-expense tests, as far as its
    [strategyConstantReal] reads it; the object also has [minSpending: 40000]. *)
Definition runnerInputs : TestRunner.Inputs.t :=
  {| TestRunner.Inputs.retirementAge := 65;
     TestRunner.Inputs.planningAge := 75;
     TestRunner.Inputs.startingPortfolio := 1000000;
     TestRunner.Inputs.expectedReturn := 6;
     TestRunner.Inputs.volatility := 0;
     TestRunner.Inputs.inflationRate := 25 # 10;
     TestRunner.Inputs.socialSecurity := 0;
     TestRunner.Inputs.ssStartAge := 67;
     TestRunner.Inputs.oneTimeExpense := 50000 |}.

(** "maxSpending wins when startingWithdrawal is above". *)
Definition overrideAboveCap : SimulationInputs :=
  spendingInputs 3000000 3 0 (Some 80000) (Some 200000) (Some 250000).




(** A four-year plan that loses 150% a year, with no inflation and no
    income. *)
Definition collapseInputs : SimulationInputs :=
  {| retirementAge := 65; planningAge := 69; startingPortfolio := 1000;
     expectedReturn := -150; volatility := 0; inflationRate := 0;
     socialSecurity := 0; ssStartAge := 70;
     oneTimeExpense := Some 0; minSpending := Some 0;
     maxSpending := None; startingWithdrawal := None |}.

(** The suite's guardrails test (a 20% loss every year), over five years. *)
Definition crashInputs : SimulationInputs :=
  {| retirementAge := 45; planningAge := 50; startingPortfolio := 1000000;
     expectedReturn := -20; volatility := 0; inflationRate := 3;
     socialSecurity := 0; ssStartAge := 67;
     oneTimeExpense := Some 0; minSpending := Some 0;
     maxSpending := None; startingWithdrawal := None |}.

End Sample.

(** * Definitions used in the statements *)

(** ** One year of any strategy

    Each loop body computes a target, then runs the shared lines of
    [closeYear].  The three definitions below name the strategy-specific
    parts, so that a fact about the shared lines is proved once. *)

Definition targetOf (s : Strategy) (inputs : SimulationInputs) (i : nat)
  (st : Loop.state) : Q :=
  match s with
  | ConstantReal =>
      if Js.gtb (Js.orZero (maxSpending inputs)) 0
      then Js.min (Loop.withdrawal st)
             (Js.orZero (maxSpending inputs)
              * Js.pow (inflationMultiplier inputs) (Z.of_nat i))
      else Loop.withdrawal st
  | ConstantPercent =>
      clampSpending inputs i
        (year1Override inputs i (Loop.portfolio st * (4 / 100)))
  | VPW =>
      clampSpending inputs i
        (year1Override inputs i
           (Loop.portfolio st
            * (vpwPercentage (planningAge inputs - ageAt inputs i) 60 / 100)))
  | Guardrails =>
      clampSpending inputs i
        (applyGuardrails inputs i
           (Js.scale
              (Js.div (Loop.withdrawal st) (Loop.portfolio st)
                 (Loop.negativeZero st)) 100)
           (Loop.portfolio st) (Loop.withdrawal st))
  | RMD =>
      clampSpending inputs i
        (year1Override inputs i
           (Loop.portfolio st / inject_Z (lifeExpectancy (ageAt inputs i))))
  end.

Definition carriedOf (s : Strategy) (inputs : SimulationInputs) (i : nat)
  (st : Loop.state) : Q :=
  match s with
  | ConstantReal | Guardrails => targetOf s inputs i st * inflationMultiplier inputs
  | ConstantPercent | VPW | RMD => Loop.withdrawal st
  end.

Definition recordOf (s : Strategy) (inputs : SimulationInputs) (i : nat)
  (st : Loop.state) (returnPct portfolio : Q) : Year.t :=
  let age := ageAt inputs i in
  let target := targetOf s inputs i st in
  let mk := Year.make i age (Loop.portfolio st) returnPct (netOf inputs i target)
              portfolio in
  match s with
  | ConstantReal =>
      mk (Some (ssAt inputs age)) (Some target) None None None None None
  | ConstantPercent =>
      mk None None (Some target) None None None None
  | VPW =>
      mk None None (Some target)
         (Some (vpwPercentage (planningAge inputs - age) 60)) None None None
  | Guardrails =>
      mk None (Some target) None None None None
         (Some (Js.scale
                  (Js.div (Loop.withdrawal st) (Loop.portfolio st)
                     (Loop.negativeZero st)) 100))
  | RMD =>
      mk None None (Some target) None (Some (lifeExpectancy age))
         (Some (Loop.portfolio st / inject_Z (lifeExpectancy age))) None
  end.

(** The return of the year and the entropy left after drawing it. *)
Definition yearReturn (inputs : SimulationInputs) (det : bool) (e : Entropy) : Q :=
  fst (generateReturn (expectedReturn inputs) (volatility inputs) det e).

Definition entropyAfter (inputs : SimulationInputs) (det : bool) (e : Entropy)
  : Entropy :=
  snd (generateReturn (expectedReturn inputs) (volatility inputs) det e).

(** The balance after the withdrawal and the overdraft clamp, and the
    balance the year closes with. *)
Definition afterWithdrawal (st : Loop.state) (net : Q) : Q :=
  if Js.ltb (Loop.portfolio st - net) 0 then 0 else Loop.portfolio st - net.

Definition closing (inputs : SimulationInputs) (det : bool) (net : Q)
  (st : Loop.state) (e : Entropy) : Q :=
  afterWithdrawal st net * (1 + yearReturn inputs det e).

(** The sign of a zero balance at the same two points. *)
Definition negativeZeroAfterWithdrawal (st : Loop.state) (net : Q) : bool :=
  if Js.ltb (Loop.portfolio st - net) 0 then false
  else Loop.negativeZero st && Qeq_bool (Loop.portfolio st) 0 && Qeq_bool net 0.

Definition closingNegativeZero (inputs : SimulationInputs) (det : bool) (net : Q)
  (st : Loop.state) (e : Entropy) : bool :=
  Qeq_bool (closing inputs det net st e) 0
  && xorb (negativeZeroAfterWithdrawal st net)
       (Js.ltb (1 + yearReturn inputs det e) 0).

(** The state and the entropy after [k] iterations, and the record
    iteration [k] pushes. *)
Definition stateAt (s : Strategy) (inputs : SimulationInputs) (det : bool)
  (e : Entropy) (k : nat) : Loop.state * Entropy :=
  forLoop (bodyOf s inputs det) k 0 (initOf s inputs) e.

Definition recordAt (s : Strategy) (inputs : SimulationInputs) (det : bool)
  (e : Entropy) (k : nat) : Year.t :=
  let (st, e') := stateAt s inputs det e k in
  recordOf s inputs k st (yearReturn inputs det e')
    (closing inputs det (netOf inputs k (targetOf s inputs k st)) st e').

(** ** The specification's wording of tables and rules *)

(** The table as the specification words it: the first bracket whose upper
    bound the age is below gives [base - age]; past the last bracket the
    value is [max(2, 100 - age)]. *)
Definition lifeExpectancyBrackets : list (Z * Z) :=
  [(60, 95); (70, 90); (80, 87); (90, 94)]%Z.

Fixpoint lookupBracket (brackets : list (Z * Z)) (age : Z) : option Z :=
  match brackets with
  | [] => None
  | (bound, base) :: rest =>
      if (age <? bound)%Z then Some (base - age)%Z else lookupBracket rest age
  end.

Definition lifeExpectancy_spec (age : Z) : Z :=
  match lookupBracket lifeExpectancyBrackets age with
  | Some years => years
  | None => Z.max 2 (100 - age)
  end.

(** The age of the first year whose record reports ruin. *)
Fixpoint firstRuin (l : list Year.t) : option Z :=
  match l with
  | [] => None
  | r :: rest => if Year.ruined r then Some (Year.age r) else firstRuin rest
  end.

(** The year's withdrawal does not exceed the balance it is taken from. *)
Definition covered (r : Year.t) : bool :=
  Js.leb (Year.withdrawal r) (Year.portfolioStart r).

(** The target a year settles on, as its record reports it: the
    [targetWithdrawal] key where the strategy writes one, the
    [baseWithdrawal] key otherwise. *)
Definition recordedTarget (r : Year.t) : Q :=
  match Year.targetWithdrawal r, Year.baseWithdrawal r with
  | Some t, _ => t
  | None, Some b => b
  | None, None => 0
  end.

(** The inflation multiplier [1 + inflation], and an amount compounded by it
    over [n] years. *)
Definition inflationFactor (inputs : SimulationInputs) : Q :=
  1 + inflationRate inputs / 100.

Definition compounded (inputs : SimulationInputs) (amount : Q) (n : Z) : Q :=
  amount * Qpower (inflationFactor inputs) n.

(** The inflation-adjusted floor and ceiling of year [i]: the inputs
    [minSpending] and [maxSpending] compounded by [(1 + inflationRate/100)^i];
    the ceiling is in force when [maxSpending] is positive. *)
Definition floorAt (inputs : SimulationInputs) (i : nat) : Q :=
  compounded inputs (Js.orZero (minSpending inputs)) (Z.of_nat i).

Definition ceilingAt (inputs : SimulationInputs) (i : nat) : Q :=
  compounded inputs (Js.orZero (maxSpending inputs)) (Z.of_nat i).





(** The clamp in the words of the specification: floor first, then the
    ceiling, which is absent when [maxSpending] is not positive. *)
Definition clampRule (inputs : SimulationInputs) (i : nat) (x : Q) : Q :=
  let floored := Js.max x (floorAt inputs i) in
  if Js.gtb (Js.orZero (maxSpending inputs)) 0
  then Js.min floored (ceilingAt inputs i)
  else floored.




(** ** Definitions used in the statements about the rest of the engine *)

(** Every element is at most the next one. *)
Fixpoint ascending (l : list Q) : bool :=
  match l with
  | [] => true
  | x :: rest =>
      match rest with
      | [] => true
      | y :: _ => Js.leb x y && ascending rest
      end
  end.

(** The strategies whose target is a share of the current balance. *)
Definition balanceDriven (s : Strategy) : bool :=
  match s with
  | ConstantPercent | VPW | RMD => true
  | ConstantReal | Guardrails => false
  end.

(** The return of year [k] of a run that started on the source [e]: the
    fixed return in deterministic mode, else the one made from the [k]-th
    deviate after the cursor. *)
Definition returnOfYear (inputs : SimulationInputs) (det : bool) (e : Entropy)
  (k : nat) : Q :=
  if det then expectedReturn inputs / 100
  else (expectedReturn inputs + tape e (cursor e + k)%nat * volatility inputs) / 100.

(** The source after [n] draws. *)
Definition drawn (e : Entropy) (n : nat) : Entropy :=
  {| tape := tape e; cursor := (cursor e + n)%nat |}.

(** The balance year [k] opens on, read off the records: the starting
    portfolio for year 1, the closing balance of the year before afterwards. *)
Definition openingBalance (inputs : SimulationInputs) (years : list Year.t)
  (k : nat) : Q :=
  match k with
  | O => startingPortfolio inputs
  | S j =>
      match nth_error years j with
      | Some previous => Year.portfolioEnd previous
      | None => 0
      end
  end.

(** The fractional rank [percentile] interpolates at: [index] in the code. *)
Definition percentileIndex (sorted : list Q) (p : Q) : Q :=
  (p / 100) * (inject_Z (Z.of_nat (length sorted)) - 1).

(** Two year records that report the same year: the same index, age and
    ruin flag, and the same amounts as numbers, on the keys every strategy
    of every copy of the engine writes. *)
Definition sameYear (r r' : Year.t) : Prop :=
  Year.year r = Year.year r'
  /\ Year.age r = Year.age r'
  /\ Year.portfolioStart r == Year.portfolioStart r'
  /\ Year.returnPct r == Year.returnPct r'
  /\ Year.withdrawal r == Year.withdrawal r'
  /\ Year.portfolioEnd r == Year.portfolioEnd r'
  /\ Year.ruined r = Year.ruined r'.

(** Two results that report the same run. *)
Definition sameResult (a b : Result.t) : Prop :=
  Forall2 sameYear (Result.years a) (Result.years b)
  /\ Result.finalBalance a == Result.finalBalance b
  /\ Result.totalWithdrawals a == Result.totalWithdrawals b
  /\ Result.ruined a = Result.ruined b
  /\ Result.ruinAge a = Result.ruinAge b.

(** Two loop states that stand for the same run so far. *)
Definition sameState (st st' : Loop.state) : Prop :=
  Loop.portfolio st == Loop.portfolio st'
  /\ Loop.ruined st = Loop.ruined st'
  /\ Loop.ruinAge st = Loop.ruinAge st'
  /\ Forall2 sameYear (Loop.yearResults st) (Loop.yearResults st').

(** * Properties *)

(** ** Comparisons, [Math.max] and [Math.min] *)

Lemma ltb_true (a b : Q) : Js.ltb a b = true <-> a < b.
Proof.
  unfold Js.ltb. rewrite negb_true_iff, <- not_true_iff_false, Qle_bool_iff.
  split; [apply Qnot_le_lt | apply Qlt_not_le].
Qed.

Lemma ltb_false (a b : Q) : Js.ltb a b = false <-> b <= a.
Proof.
  unfold Js.ltb. rewrite negb_false_iff. apply Qle_bool_iff.
Qed.

Lemma leb_true (a b : Q) : Js.leb a b = true <-> a <= b.
Proof. apply Qle_bool_iff. Qed.

Lemma leb_false (a b : Q) : Js.leb a b = false <-> b < a.
Proof.
  unfold Js.leb. rewrite <- not_true_iff_false, Qle_bool_iff.
  split; [apply Qnot_le_lt | apply Qlt_not_le].
Qed.

Lemma gtb_true (a b : Q) : Js.gtb a b = true <-> b < a.
Proof. apply ltb_true. Qed.

Lemma gtb_false (a b : Q) : Js.gtb a b = false <-> a <= b.
Proof. apply ltb_false. Qed.

(** Case analysis on a comparison, leaving the order fact in the context. *)
Ltac cases_cmp :=
  match goal with
  | |- context [Js.ltb ?a ?b] =>
      let H := fresh "Hlt" in
      destruct (Js.ltb a b) eqn:H;
      [apply ltb_true in H | apply ltb_false in H]
  | |- context [Js.leb ?a ?b] =>
      let H := fresh "Hle" in
      destruct (Js.leb a b) eqn:H;
      [apply leb_true in H | apply leb_false in H]
  | |- context [Js.gtb ?a ?b] =>
      let H := fresh "Hgt" in
      destruct (Js.gtb a b) eqn:H;
      [apply gtb_true in H | apply gtb_false in H]
  end.

Lemma max_l (a b : Q) : a <= Js.max a b.
Proof. unfold Js.max. cases_cmp; lra. Qed.


Lemma max_cases (a b : Q) :
  (a <= b /\ Js.max a b = b) \/ (b < a /\ Js.max a b = a).
Proof. unfold Js.max. cases_cmp; auto. Qed.

Lemma min_cases (a b : Q) :
  (a <= b /\ Js.min a b = a) \/ (b < a /\ Js.min a b = b).
Proof. unfold Js.min. cases_cmp; auto. Qed.

Lemma min_l (a b : Q) : Js.min a b <= a.
Proof. destruct (min_cases a b) as [[? ->]|[? ->]]; lra. Qed.

Lemma min_r (a b : Q) : Js.min a b <= b.
Proof. destruct (min_cases a b) as [[? ->]|[? ->]]; lra. Qed.

#[export] Instance ltb_proper : Proper (Qeq ==> Qeq ==> eq) Js.ltb.
Proof.
  intros a a' Ha b b' Hb.
  destruct (Js.ltb a b) eqn:H1, (Js.ltb a' b') eqn:H2; trivial;
    rewrite ?ltb_true, ?ltb_false in *; lra.
Qed.

#[export] Instance leb_proper : Proper (Qeq ==> Qeq ==> eq) Js.leb.
Proof.
  intros a a' Ha b b' Hb.
  destruct (Js.leb a b) eqn:H1, (Js.leb a' b') eqn:H2; trivial;
    rewrite ?leb_true, ?leb_false in *; lra.
Qed.

#[export] Instance gtb_proper : Proper (Qeq ==> Qeq ==> eq) Js.gtb.
Proof. intros a a' Ha b b' Hb. unfold Js.gtb. now rewrite Ha, Hb. Qed.

#[export] Instance max_proper : Proper (Qeq ==> Qeq ==> Qeq) Js.max.
Proof.
  intros a a' Ha b b' Hb.
  destruct (max_cases a b) as [[? ->]|[? ->]],
           (max_cases a' b') as [[? ->]|[? ->]]; lra.
Qed.

#[export] Instance min_proper : Proper (Qeq ==> Qeq ==> Qeq) Js.min.
Proof.
  intros a a' Ha b b' Hb.
  destruct (min_cases a b) as [[? ->]|[? ->]],
           (min_cases a' b') as [[? ->]|[? ->]]; lra.
Qed.

(** Division by the constant 100, in the form [lra] reads. *)
Lemma div_100 (x : Q) : x / 100 == x * (1 # 100).
Proof. reflexivity. Qed.

Lemma inflationMultiplier_nonneg inputs :
  -100 <= inflationRate inputs -> 0 <= inflationMultiplier inputs.
Proof. intros H. unfold inflationMultiplier. rewrite div_100. lra. Qed.

(** [Math.pow] on the year index. *)
Lemma pow_0 (b : Q) : Js.pow b (Z.of_nat 0) = 1.
Proof. reflexivity. Qed.

Lemma pow_succ (b : Q) (n : nat) :
  Js.pow b (Z.of_nat (S n)) == Js.pow b (Z.of_nat n) * b.
Proof.
  unfold Js.pow. rewrite Nat2Z.inj_succ, <- Z.add_1_r.
  rewrite Qpower_plus' by lia. reflexivity.
Qed.

Lemma pow_nonneg (b : Q) (n : Z) : 0 <= b -> 0 <= Js.pow b n.
Proof. apply Qpower_0_le. Qed.


Lemma bodyOf_closeYear s inputs det i st e :
  bodyOf s inputs det i st e
  = closeYear inputs det (ageAt inputs i) (netOf inputs i (targetOf s inputs i st))
      (recordOf s inputs i st) (carriedOf s inputs i st) st e.
Proof. destruct s; reflexivity. Qed.

Lemma closeYear_eq inputs det age net record carried st e :
  closeYear inputs det age net record carried st e
  = ({| Loop.portfolio := closing inputs det net st e;
        Loop.negativeZero := closingNegativeZero inputs det net st e;
        Loop.withdrawal := carried;
        Loop.yearResults :=
          Loop.yearResults st
          ++ [record (yearReturn inputs det e) (closing inputs det net st e)];
        Loop.ruined := Loop.ruined st || Js.leb (closing inputs det net st e) 0;
        Loop.ruinAge :=
          if Loop.ruined st then Loop.ruinAge st
          else if Js.leb (closing inputs det net st e) 0 then Some age
          else Loop.ruinAge st |},
     entropyAfter inputs det e).
Proof.
  unfold closeYear, closingNegativeZero, negativeZeroAfterWithdrawal, closing,
    afterWithdrawal, yearReturn, entropyAfter, markRuined.
  destruct (generateReturn _ _ det e) as [ret e']. cbn [fst snd].
  destruct (Js.ltb (Loop.portfolio st - net) 0) eqn:Hover.
  - assert (Hz : Js.leb (0 * (1 + ret)) 0 = true) by (apply leb_true; lra).
    rewrite Hz. cbn [fst snd].
    destruct (Loop.ruined st); reflexivity.
  - cbn [fst snd].
    destruct (Js.leb _ 0), (Loop.ruined st); reflexivity.
Qed.

Lemma forLoop_snoc body n : forall i st e,
  forLoop body (S n) i st e
  = let (st', e') := forLoop body n i st e in body (i + n)%nat st' e'.
Proof.
  induction n as [|n IH]; intros i st e.
  - cbn. rewrite Nat.add_0_r. destruct (body i st e); reflexivity.
  - change (forLoop body (S (S n)) i st e)
      with (let (st', e') := body i st e in forLoop body (S n) (S i) st' e').
    destruct (body i st e) as [st1 e1] eqn:Hb.
    rewrite IH. cbn [forLoop]. rewrite Hb.
    replace (S i + n)%nat with (i + S n)%nat by lia. reflexivity.
Qed.

Lemma stateAt_succ s inputs det e k :
  stateAt s inputs det e (S k)
  = bodyOf s inputs det k (fst (stateAt s inputs det e k))
      (snd (stateAt s inputs det e k)).
Proof.
  unfold stateAt. rewrite forLoop_snoc.
  destruct (forLoop _ k 0 _ e); reflexivity.
Qed.

Lemma run_stateAt s inputs det e :
  run s inputs det e
  = (finish (fst (stateAt s inputs det e (horizon inputs))),
     snd (stateAt s inputs det e (horizon inputs))).
Proof.
  unfold stateAt.
  destruct s; cbn [run bodyOf initOf];
    [ unfold strategyConstantReal | unfold strategyConstantPercent
    | unfold strategyVPW | unfold strategyGuardrails | unfold strategyRMD ];
    match goal with |- context [forLoop ?b ?n 0 ?st e] =>
      destruct (forLoop b n 0 st e) end; reflexivity.
Qed.

(** What one iteration does to each loop variable. *)
Lemma step_yearResults s inputs det e k :
  Loop.yearResults (fst (stateAt s inputs det e (S k)))
  = Loop.yearResults (fst (stateAt s inputs det e k)) ++ [recordAt s inputs det e k].
Proof.
  unfold recordAt. rewrite stateAt_succ, bodyOf_closeYear, closeYear_eq.
  destruct (stateAt s inputs det e k); reflexivity.
Qed.

Lemma step_portfolio s inputs det e k :
  Loop.portfolio (fst (stateAt s inputs det e (S k)))
  = Year.portfolioEnd (recordAt s inputs det e k).
Proof.
  unfold recordAt. rewrite stateAt_succ, bodyOf_closeYear, closeYear_eq.
  destruct (stateAt s inputs det e k); destruct s; reflexivity.
Qed.

Lemma step_negativeZero s inputs det e k :
  Loop.negativeZero (fst (stateAt s inputs det e (S k)))
  = closingNegativeZero inputs det (Year.withdrawal (recordAt s inputs det e k))
      (fst (stateAt s inputs det e k)) (snd (stateAt s inputs det e k)).
Proof.
  unfold recordAt. rewrite stateAt_succ, bodyOf_closeYear, closeYear_eq.
  destruct (stateAt s inputs det e k); destruct s; reflexivity.
Qed.

Lemma step_withdrawal s inputs det e k :
  Loop.withdrawal (fst (stateAt s inputs det e (S k)))
  = carriedOf s inputs k (fst (stateAt s inputs det e k)).
Proof. rewrite stateAt_succ, bodyOf_closeYear, closeYear_eq. reflexivity. Qed.

Lemma step_ruined s inputs det e k :
  Loop.ruined (fst (stateAt s inputs det e (S k)))
  = Loop.ruined (fst (stateAt s inputs det e k))
    || Year.ruined (recordAt s inputs det e k).
Proof.
  unfold recordAt. rewrite stateAt_succ, bodyOf_closeYear, closeYear_eq.
  destruct (stateAt s inputs det e k); destruct s; reflexivity.
Qed.

Lemma step_ruinAge s inputs det e k :
  Loop.ruinAge (fst (stateAt s inputs det e (S k)))
  = if Loop.ruined (fst (stateAt s inputs det e k))
    then Loop.ruinAge (fst (stateAt s inputs det e k))
    else if Year.ruined (recordAt s inputs det e k)
    then Some (Year.age (recordAt s inputs det e k))
    else Loop.ruinAge (fst (stateAt s inputs det e k)).
Proof.
  unfold recordAt. rewrite stateAt_succ, bodyOf_closeYear, closeYear_eq.
  destruct (stateAt s inputs det e k); destruct s; reflexivity.
Qed.

(** The keys every strategy writes into the record of a year. *)
Lemma record_year s inputs det e k : Year.year (recordAt s inputs det e k) = k.
Proof. unfold recordAt. destruct (stateAt s inputs det e k), s; reflexivity. Qed.

Lemma record_age s inputs det e k :
  Year.age (recordAt s inputs det e k) = ageAt inputs k.
Proof. unfold recordAt. destruct (stateAt s inputs det e k), s; reflexivity. Qed.

Lemma record_portfolioStart s inputs det e k :
  Year.portfolioStart (recordAt s inputs det e k)
  = Loop.portfolio (fst (stateAt s inputs det e k)).
Proof. unfold recordAt. destruct (stateAt s inputs det e k), s; reflexivity. Qed.

Lemma record_withdrawal s inputs det e k :
  Year.withdrawal (recordAt s inputs det e k)
  = netOf inputs k (targetOf s inputs k (fst (stateAt s inputs det e k))).
Proof. unfold recordAt. destruct (stateAt s inputs det e k), s; reflexivity. Qed.

Lemma record_portfolioEnd s inputs det e k :
  Year.portfolioEnd (recordAt s inputs det e k)
  = closing inputs det (Year.withdrawal (recordAt s inputs det e k))
      (fst (stateAt s inputs det e k)) (snd (stateAt s inputs det e k)).
Proof. unfold recordAt. destruct (stateAt s inputs det e k), s; reflexivity. Qed.

Lemma record_ruined s inputs det e k :
  Year.ruined (recordAt s inputs det e k)
  = Js.leb (Year.portfolioEnd (recordAt s inputs det e k)) 0.
Proof. unfold recordAt. destruct (stateAt s inputs det e k), s; reflexivity. Qed.

Lemma record_returnPct s inputs det e k :
  Year.returnPct (recordAt s inputs det e k)
  = yearReturn inputs det (snd (stateAt s inputs det e k)) * 100.
Proof. unfold recordAt. destruct (stateAt s inputs det e k), s; reflexivity. Qed.

(** The records of a run are the records its iterations push, in order. *)
Lemma stateAt_yearResults s inputs det e k :
  Loop.yearResults (fst (stateAt s inputs det e k))
  = map (recordAt s inputs det e) (seq 0 k).
Proof.
  induction k as [|k IH].
  - destruct s; reflexivity.
  - rewrite step_yearResults, IH, seq_S, map_app. reflexivity.
Qed.

Lemma run_years s inputs det e :
  Result.years (fst (run s inputs det e))
  = map (recordAt s inputs det e) (seq 0 (horizon inputs)).
Proof. rewrite run_stateAt. cbn. apply stateAt_yearResults. Qed.

Lemma run_nth s inputs det e k r :
  nth_error (Result.years (fst (run s inputs det e))) k = Some r
  <-> (k < horizon inputs)%nat /\ r = recordAt s inputs det e k.
Proof.
  rewrite run_years. split.
  - intros H.
    assert (Hk : (k < horizon inputs)%nat).
    { assert (Hn : nth_error (map (recordAt s inputs det e) (seq 0 (horizon inputs))) k
                   <> None) by congruence.
      apply nth_error_Some in Hn. now rewrite length_map, length_seq in Hn. }
    split; [exact Hk|].
    rewrite nth_error_map, nth_error_seq in H.
    destruct (Nat.ltb_spec k (horizon inputs)); [|lia].
    cbn in H. congruence.
  - intros [Hk ->]. rewrite nth_error_map, nth_error_seq.
    destruct (Nat.ltb_spec k (horizon inputs)); [|lia]. reflexivity.
Qed.

Lemma run_In s inputs det e r :
  In r (Result.years (fst (run s inputs det e)))
  <-> exists k, (k < horizon inputs)%nat /\ r = recordAt s inputs det e k.
Proof.
  rewrite run_years, in_map_iff. split.
  - intros (k & <- & Hk). apply in_seq in Hk. exists k. split; [lia|reflexivity].
  - intros (k & Hk & ->). exists k. split; [reflexivity|]. apply in_seq. lia.
Qed.

Lemma recordAt_nth s inputs det e k :
  (k < horizon inputs)%nat ->
  nth_error (Result.years (fst (run s inputs det e))) k
  = Some (recordAt s inputs det e k).
Proof. intros Hk. apply (proj2 (run_nth s inputs det e k _)). now split. Qed.

Lemma recordAt_In s inputs det e k :
  (k < horizon inputs)%nat ->
  In (recordAt s inputs det e k) (Result.years (fst (run s inputs det e))).
Proof.
  intros Hk. apply (proj2 (run_In s inputs det e _)). exists k. now split.
Qed.

(** ** Life expectancy (C8) *)

Lemma lifeExpectancy_matches_spec (age : Z) :
  lifeExpectancy age = lifeExpectancy_spec age.
Proof.
  unfold lifeExpectancy, lifeExpectancy_spec, lifeExpectancyBrackets, lookupBracket.
  repeat match goal with |- context [(age <? ?b)%Z] => destruct (age <? b)%Z end;
    reflexivity.
Qed.

Lemma lifeExpectancy_ge_2 (age : Z) : (2 <= lifeExpectancy age)%Z.
Proof.
  unfold lifeExpectancy.
  repeat match goal with
         | |- context [(age <? ?b)%Z] => destruct (Z.ltb_spec age b)
         end; lia.
Qed.

Lemma run_RMD inputs det e : run RMD inputs det e = strategyRMD inputs det e.
Proof. reflexivity. Qed.

Lemma recordAt_RMD inputs det e k :
  let r := recordAt RMD inputs det e k in
  Year.lifeExp r = Some (lifeExpectancy (Year.age r))
  /\ Year.rmdWithdrawal r
     = Some (Year.portfolioStart r / inject_Z (lifeExpectancy (Year.age r))).
Proof.
  unfold recordAt. destruct (stateAt RMD inputs det e k). split; reflexivity.
Qed.

(** C8.  [lifeExpectancy] is the bracket table of the specification, its
    value is at least 2 at every age, and so every year of the RMD strategy
    divides the opening balance by a life expectancy of at least 2 --- never
    by zero. *)
Theorem lifeExpectancy_floor_makes_rmd_safe :
  (forall age : Z,
      lifeExpectancy age = lifeExpectancy_spec age
      /\ (2 <= lifeExpectancy age)%Z)
  /\ (forall inputs det e r,
         In r (Result.years (fst (strategyRMD inputs det e))) ->
         exists l : Z,
           Year.lifeExp r = Some l
           /\ l = lifeExpectancy (Year.age r)
           /\ (2 <= l)%Z
           /\ ~ inject_Z l == 0
           /\ Year.rmdWithdrawal r = Some (Year.portfolioStart r / inject_Z l)).
Proof.
  split.
  - intros age. split.
    + apply lifeExpectancy_matches_spec.
    + apply lifeExpectancy_ge_2.
  - intros inputs det e r Hin.
    change (strategyRMD inputs det e) with (run RMD inputs det e) in Hin.
    apply run_In in Hin. destruct Hin as (k & _ & ->).
    destruct (recordAt_RMD inputs det e k) as [Hl Hrmd].
    exists (lifeExpectancy (Year.age (recordAt RMD inputs det e k))).
    pose proof (lifeExpectancy_ge_2 (Year.age (recordAt RMD inputs det e k))) as Hge.
    repeat split; trivial.
    intros Heq. unfold Qeq in Heq. cbn in Heq. lia.
Qed.

Lemma lifeExpectancy_floor_makes_rmd_safe_witness :
  exists l : Z,
    Year.lifeExp (recordAt RMD Sample.standardInputs true Sample.quiet 49)
    = Some l
    /\ (2 <= l)%Z.
Proof.
  assert (Hin : In (recordAt RMD Sample.standardInputs true Sample.quiet 49)
                  (Result.years
                     (fst (strategyRMD Sample.standardInputs true Sample.quiet)))).
  { rewrite <- run_RMD. apply recordAt_In. vm_compute. lia. }
  destruct (proj2 lifeExpectancy_floor_makes_rmd_safe
              Sample.standardInputs true Sample.quiet _ Hin)
    as (l & Hl & _ & Hge & _).
  exists l. split; assumption.
Defined.

(** ** The variable-percentage table (C6) *)

Lemma vpwPercentage_le_100 (y : Z) : vpwPercentage y 60 <= 100.
Proof.
  unfold vpwPercentage.
  repeat match goal with
         | |- context [(?b <=? y)%Z] => destruct (b <=? y)%Z
         end; try (vm_compute; discriminate).
  apply min_l.
Qed.

(** Across the brackets, down to four years remaining, the percentage does
    not fall as the years remaining fall. *)
Lemma vpwPercentage_rises_down_to_4 (y1 y2 : Z) :
  (4 <= y2 < y1)%Z -> vpwPercentage y1 60 <= vpwPercentage y2 60.
Proof.
  intros H. unfold vpwPercentage.
  repeat match goal with
         | |- context [(?b <=? ?y)%Z] => destruct (Z.leb_spec b y)
         end; try lia; try (vm_compute; discriminate).
  all: assert (y2 = 4%Z) as -> by lia; vm_compute; discriminate.
Qed.

(** Inside the last bracket the formula [20 + 2 * yearsRemaining] falls with
    the years remaining. *)
Lemma vpwPercentage_last_bracket (y : Z) :
  (y < 5)%Z -> vpwPercentage y 60 == Js.min 100 (20 + inject_Z y * 2).
Proof.
  intros H. unfold vpwPercentage.
  repeat match goal with
         | |- context [(?b <=? y)%Z] => destruct (Z.leb_spec b y)
         end; try lia. reflexivity.
Qed.

(** C6.  The code at four and at three years remaining: the percentage
    falls from 28 to 26 although the years remaining fell. *)
Theorem vpwPercentage_falls_in_last_bracket :
  vpwPercentage 4 60 == 28
  /\ vpwPercentage 3 60 == 26
  /\ vpwPercentage 3 60 < vpwPercentage 4 60
  /\ ~ (forall y1 y2 : Z,
          (0 <= y2 < y1)%Z -> vpwPercentage y1 60 <= vpwPercentage y2 60).
Proof.
  repeat split; try (vm_compute; reflexivity).
  intros H. specialize (H 4%Z 3%Z ltac:(lia)). vm_compute in H. apply H. reflexivity.
Qed.

(** ** Deterministic mode (C9) *)

Lemma yearReturn_det inputs e :
  yearReturn inputs true e = expectedReturn inputs / 100.
Proof. reflexivity. Qed.

Lemma entropyAfter_det inputs e : entropyAfter inputs true e = e.
Proof. reflexivity. Qed.

Lemma bodyOf_det s inputs i st e1 e2 :
  fst (bodyOf s inputs true i st e1) = fst (bodyOf s inputs true i st e2)
  /\ snd (bodyOf s inputs true i st e1) = e1.
Proof.
  rewrite !bodyOf_closeYear, !closeYear_eq. cbn [fst snd]. split; reflexivity.
Qed.

Lemma stateAt_det s inputs e1 e2 k :
  fst (stateAt s inputs true e1 k) = fst (stateAt s inputs true e2 k)
  /\ snd (stateAt s inputs true e1 k) = e1.
Proof.
  induction k as [|k [IHst IHe]].
  - split; reflexivity.
  - rewrite !stateAt_succ, IHst.
    destruct (bodyOf_det s inputs k (fst (stateAt s inputs true e2 k))
                (snd (stateAt s inputs true e1 k)) (snd (stateAt s inputs true e2 k)))
      as [H1 H2].
    split; [exact H1 | now rewrite H2].
Qed.

Lemma run_det s inputs e1 e2 :
  fst (run s inputs true e1) = fst (run s inputs true e2)
  /\ snd (run s inputs true e1) = e1.
Proof.
  rewrite !run_stateAt. cbn [fst snd].
  destruct (stateAt_det s inputs e1 e2 (horizon inputs)) as [Hst He].
  now rewrite Hst, He.
Qed.

(** C9.  In deterministic mode [generateReturn] is [mean / 100] and hands
    the entropy source back untouched; hence a deterministic run of any
    strategy leaves the source as it found it, and two deterministic runs on
    the same inputs return the same result whatever the source holds. *)
Theorem deterministic_runs_reproducible :
  (forall mean vol e, generateReturn mean vol true e = (mean / 100, e))
  /\ (forall s inputs e1 e2,
         fst (run s inputs true e1) = fst (run s inputs true e2)
         /\ snd (run s inputs true e1) = e1).
Proof.
  split.
  - reflexivity.
  - intros s inputs e1 e2. apply run_det.
Qed.

(** ** The two copies of [strategyConstantReal] (C10) *)

Lemma forLoop_ext body1 body2 :
  (forall i st e, body1 i st e = body2 i st e) ->
  forall n i st e, forLoop body1 n i st e = forLoop body2 n i st e.
Proof.
  intros Hext n. induction n as [|n IH]; intros i st e; cbn.
  - reflexivity.
  - rewrite Hext. destruct (body2 i st e). apply IH.
Qed.

Lemma isPositive_false_of_zero (x : option Q) :
  Js.orZero x == 0 -> Js.isPositive x = false /\ Js.gtb (Js.orZero x) 0 = false.
Proof.
  intros H. destruct x as [q|]; cbn in *.
  - assert (Hg : Js.gtb q 0 = false) by (apply gtb_false; lra). now rewrite Hg.
  - split; reflexivity.
Qed.

Lemma constantReal_copies_agree inputs det e :
  Js.orZero (startingWithdrawal inputs) == 0 ->
  Js.orZero (maxSpending inputs) == 0 ->
  Part000.strategyConstantReal inputs det e = strategyConstantReal inputs det e.
Proof.
  intros Hsw Hmax.
  destruct (isPositive_false_of_zero _ Hsw) as [Hsw1 _].
  destruct (isPositive_false_of_zero _ Hmax) as [Hmax1 Hmax2].
  unfold Part000.strategyConstantReal, strategyConstantReal.
  assert (Hinit : Part000.initConstantReal inputs = initConstantReal inputs).
  { unfold Part000.initConstantReal, initConstantReal. now rewrite Hsw1, Hmax1. }
  rewrite Hinit.
  rewrite (forLoop_ext (Part000.bodyConstantReal inputs det)
             (bodyConstantReal inputs det)); [reflexivity|].
  intros i st e0. unfold Part000.bodyConstantReal, bodyConstantReal.
  now rewrite Hmax2.
Qed.

(** C10.  On inputs whose [startingWithdrawal] and [maxSpending] are 0 or
    absent, the [strategyConstantReal] of the older suite and the one of the
    comprehensive suite return the same result in deterministic mode: the
    same year records, final balance, total, ruin flag and ruin age. *)
Theorem constantReal_copies_equal_without_override_and_cap :
  forall inputs e e',
    Js.orZero (startingWithdrawal inputs) == 0 ->
    Js.orZero (maxSpending inputs) == 0 ->
    fst (Part000.strategyConstantReal inputs true e)
    = fst (strategyConstantReal inputs true e').
Proof.
  intros inputs e e' Hsw Hmax.
  rewrite (constantReal_copies_agree inputs true e Hsw Hmax).
  apply (run_det ConstantReal inputs e e').
Qed.

Lemma constantReal_copies_equal_witness :
  fst (Part000.strategyConstantReal (Sample.flat 1000000 3) true Sample.quiet)
  = fst (strategyConstantReal (Sample.flat 1000000 3) true (Sample.constant 1)).
Proof.
  apply (constantReal_copies_equal_without_override_and_cap
           (Sample.flat 1000000 3) Sample.quiet (Sample.constant 1));
    reflexivity.
Defined.

(** ** The closing balance (C1) *)

Lemma afterWithdrawal_nonneg st net : 0 <= afterWithdrawal st net.
Proof. unfold afterWithdrawal. cases_cmp; lra. Qed.

(** The overdraft is clamped before the return is applied: the closing
    balance of every year is a non-negative amount times [1 + return]. *)
Lemma portfolioEnd_factors s inputs det e k :
  exists kept : Q,
    0 <= kept
    /\ Year.portfolioEnd (recordAt s inputs det e k)
       = kept * (1 + yearReturn inputs det (snd (stateAt s inputs det e k))).
Proof.
  rewrite record_portfolioEnd. unfold closing.
  eexists. split; [apply afterWithdrawal_nonneg | reflexivity].
Qed.

(** Hence the closing balance is non-negative whenever the year's return is
    at least -100%; in deterministic mode, whenever [expectedReturn >= -100]. *)
Lemma portfolioEnd_nonneg_of_return s inputs det e k :
  -1 <= yearReturn inputs det (snd (stateAt s inputs det e k)) ->
  0 <= Year.portfolioEnd (recordAt s inputs det e k).
Proof.
  intros Hret.
  destruct (portfolioEnd_factors s inputs det e k) as (kept & Hkept & ->).
  nra.
Qed.

Lemma portfolioEnd_nonneg_deterministic s inputs e r :
  -100 <= expectedReturn inputs ->
  In r (Result.years (fst (run s inputs true e))) ->
  0 <= Year.portfolioEnd r.
Proof.
  intros Hret Hin. apply run_In in Hin. destruct Hin as (k & _ & ->).
  destruct (portfolioEnd_factors s inputs true e k) as (kept & Hkept & ->).
  rewrite yearReturn_det.
  assert (0 <= 1 + expectedReturn inputs / 100) by (rewrite div_100; lra).
  nra.
Qed.

(** C1.  The code on the input of the suite's test "100% volatility
    produces valid results", in stochastic mode, when the first normal
    deviate drawn is -2: the return of year 1 is -195%, the overdraft clamp
    has nothing to clamp, and the record of year 1 closes on a balance of
    -1,360,875. *)
Theorem portfolioEnd_negative_after_return_below_minus_100 :
  exists r,
    nth_error
      (Result.years
         (fst (strategyConstantReal Sample.volatileInputs false
                 (Sample.constant (-2)))))
      0 = Some r
    /\ Year.returnPct r == -195
    /\ Year.withdrawal r == 67500
    /\ Year.portfolioEnd r == -1360875
    /\ Year.portfolioEnd r < 0.
Proof.
  eexists. split; [vm_compute; reflexivity|].
  repeat split; vm_compute; reflexivity.
Qed.

(** The same happens in deterministic mode for [expectedReturn < -100]. *)
Lemma portfolioEnd_negative_deterministic :
  exists r,
    In r (Result.years
            (fst (strategyConstantPercent
                    {| retirementAge := 65; planningAge := 66;
                       startingPortfolio := 1000; expectedReturn := -150;
                       volatility := 0; inflationRate := 0; socialSecurity := 0;
                       ssStartAge := 70; oneTimeExpense := None;
                       minSpending := None; maxSpending := None;
                       startingWithdrawal := None |} true Sample.quiet)))
    /\ Year.portfolioEnd r < 0.
Proof.
  eexists. split; [left; reflexivity|]. vm_compute. reflexivity.
Qed.

(** ** The recorded withdrawal (C2) *)

Lemma oneTimeExpenseThisYear_nonneg inputs i :
  0 <= Js.orZero (oneTimeExpense inputs) ->
  -100 <= inflationRate inputs ->
  0 <= oneTimeExpenseThisYear inputs i.
Proof.
  intros Hote Hinfl. unfold oneTimeExpenseThisYear.
  destruct ((Z.of_nat i + 1) mod 5 =? 0)%Z; [|lra].
  pose proof (pow_nonneg (inflationMultiplier inputs) (Z.of_nat i)
                (inflationMultiplier_nonneg inputs Hinfl)).
  nra.
Qed.

Lemma netOf_nonneg inputs i target :
  0 <= oneTimeExpenseThisYear inputs i -> 0 <= netOf inputs i target.
Proof.
  intros H. unfold netOf.
  pose proof (max_l 0 (target - ssAt inputs (ageAt inputs i))). lra.
Qed.

(** C2, as stated, fails: a negative [oneTimeExpense] is not treated as 0
    ([x || 0] replaces only a missing value), and the withdrawal recorded in
    an expense year is then negative. *)
Lemma withdrawal_negative_with_negative_expense :
  ~ (forall s inputs det e r,
        In r (Result.years (fst (run s inputs det e))) ->
        0 <= Year.withdrawal r).
Proof.
  intros H.
  specialize (H ConstantReal (Sample.refundInputs 1000000 0) true Sample.quiet
                (recordAt ConstantReal (Sample.refundInputs 1000000 0) true
                   Sample.quiet 4)).
  assert (Hin : In (recordAt ConstantReal (Sample.refundInputs 1000000 0) true
                      Sample.quiet 4)
                  (Result.years
                     (fst (run ConstantReal (Sample.refundInputs 1000000 0) true
                             Sample.quiet)))).
  { apply recordAt_In. vm_compute. lia. }
  specialize (H Hin). vm_compute in H. apply H. reflexivity.
Qed.

(** C2, amended.  For every input whose [oneTimeExpense] is missing or
    non-negative and whose [inflationRate] is at least -100 --- whatever its
    [minSpending], [maxSpending] and [startingWithdrawal], missing or
    negative ones included --- the withdrawal recorded in every year of
    every strategy, in either mode, is non-negative. *)
Theorem withdrawal_nonneg :
  forall s inputs det e r,
    0 <= Js.orZero (oneTimeExpense inputs) ->
    -100 <= inflationRate inputs ->
    In r (Result.years (fst (run s inputs det e))) ->
    0 <= Year.withdrawal r.
Proof.
  intros s inputs det e r Hote Hinfl Hin.
  apply run_In in Hin. destruct Hin as (k & _ & ->).
  rewrite record_withdrawal.
  apply netOf_nonneg, oneTimeExpenseThisYear_nonneg; assumption.
Qed.

Lemma withdrawal_nonneg_witness :
  0 <= Year.withdrawal
         (recordAt VPW Sample.standardInputs false (Sample.constant (-1)) 4).
Proof.
  apply (withdrawal_nonneg VPW Sample.standardInputs false (Sample.constant (-1))).
  - vm_compute. discriminate.
  - vm_compute. discriminate.
  - apply recordAt_In. vm_compute. lia.
Defined.

(** The bound on the inflation rate is needed as well: with
    [inflationRate: -200] the expense of year 10 is [100000 * (-1)^9]. *)
Lemma withdrawal_negative_with_negative_multiplier :
  Year.withdrawal
    (recordAt ConstantReal (Sample.signFlipInputs 100000 0) true Sample.quiet 9)
  == -100000.
Proof. vm_compute. reflexivity. Qed.

(** ** Ruin (C3) *)

Lemma firstRuin_none l : existsb Year.ruined l = false -> firstRuin l = None.
Proof.
  induction l as [|r l IH]; cbn; [reflexivity|].
  destruct (Year.ruined r); cbn; [discriminate | exact IH].
Qed.

Lemma firstRuin_snoc l r :
  firstRuin (l ++ [r])
  = if existsb Year.ruined l then firstRuin l
    else if Year.ruined r then Some (Year.age r) else None.
Proof.
  induction l as [|r0 l IH]; cbn; [reflexivity|].
  destruct (Year.ruined r0); cbn; [reflexivity | exact IH].
Qed.

(** The loop's flags summarise the records pushed so far. *)
Lemma flags_summarise_records s inputs det e k :
  let st := fst (stateAt s inputs det e k) in
  Loop.ruined st = existsb Year.ruined (Loop.yearResults st)
  /\ Loop.ruinAge st = firstRuin (Loop.yearResults st).
Proof.
  induction k as [|k [IHr IHa]]; cbn zeta.
  - destruct s; split; reflexivity.
  - rewrite step_ruined, step_ruinAge, step_yearResults, existsb_app, firstRuin_snoc.
    cbn [existsb]. rewrite orb_false_r, IHr, IHa. split; [reflexivity|].
    destruct (existsb Year.ruined _) eqn:Hex; [reflexivity|].
    rewrite (firstRuin_none _ Hex). reflexivity.
Qed.

(** Once set, the flag stays set and the ruin age stays what it was. *)
Lemma flags_sticky s inputs det e j k :
  (j <= k)%nat ->
  Loop.ruined (fst (stateAt s inputs det e j)) = true ->
  Loop.ruined (fst (stateAt s inputs det e k)) = true
  /\ Loop.ruinAge (fst (stateAt s inputs det e k))
     = Loop.ruinAge (fst (stateAt s inputs det e j)).
Proof.
  intros Hjk Hj. induction Hjk as [|k Hjk [IHr IHa]].
  - split; [exact Hj | reflexivity].
  - rewrite step_ruined, step_ruinAge, IHr. split; [reflexivity | exact IHa].
Qed.

(** A year that opens on a balance of zero or less and withdraws a
    non-negative amount closes on zero. *)
Lemma ruined_next s inputs det e k :
  Year.ruined (recordAt s inputs det e k) = true ->
  0 <= Year.withdrawal (recordAt s inputs det e (S k)) ->
  Year.ruined (recordAt s inputs det e (S k)) = true.
Proof.
  intros Hk Hw.
  rewrite record_ruined in Hk. apply leb_true in Hk.
  rewrite <- step_portfolio in Hk.
  rewrite record_ruined. apply leb_true.
  rewrite record_portfolioEnd. unfold closing, afterWithdrawal.
  set (p := Loop.portfolio (fst (stateAt s inputs det e (S k)))) in *.
  set (w := Year.withdrawal (recordAt s inputs det e (S k))) in *.
  cases_cmp.
  - lra.
  - assert (Hz : p - w == 0) by lra. rewrite Hz. lra.
Qed.

Lemma ruined_later s inputs det e k j :
  (k <= j)%nat ->
  Year.ruined (recordAt s inputs det e k) = true ->
  (forall i, (k < i <= j)%nat -> 0 <= Year.withdrawal (recordAt s inputs det e i)) ->
  Year.ruined (recordAt s inputs det e j) = true.
Proof.
  intros Hkj Hk Hw. induction Hkj as [|j Hkj IH].
  - exact Hk.
  - apply ruined_next.
    + apply IH. intros i Hi. apply Hw. lia.
    + apply Hw. lia.
Qed.

(** C3, as stated, fails for the year records: with a negative one-time
    expense the balance of a ruined path comes back above zero, and the
    record of that later year reports [ruined = false]. *)
Lemma later_record_not_ruined :
  ~ (forall s inputs det e k j rk rj,
        (k <= j)%nat ->
        nth_error (Result.years (fst (run s inputs det e))) k = Some rk ->
        nth_error (Result.years (fst (run s inputs det e))) j = Some rj ->
        Year.ruined rk = true ->
        Year.ruined rj = true).
Proof.
  intros H.
  specialize (H ConstantReal (Sample.refundInputs 1000 5000) true Sample.quiet
                0%nat 4%nat).
  destruct (nth_error
              (Result.years
                 (fst (run ConstantReal (Sample.refundInputs 1000 5000) true Sample.quiet)))
              0) as [rk|] eqn:Hk; [|vm_compute in Hk; discriminate].
  destruct (nth_error
              (Result.years
                 (fst (run ConstantReal (Sample.refundInputs 1000 5000) true Sample.quiet)))
              4) as [rj|] eqn:Hj; [|vm_compute in Hj; discriminate].
  specialize (H rk rj ltac:(lia) eq_refl eq_refl).
  vm_compute in Hk. injection Hk as <-.
  vm_compute in Hj. injection Hj as <-.
  specialize (H eq_refl). discriminate H.
Qed.

(** C3, amended.  In every run of every strategy the loop's [ruined] flag,
    once true, is true after every later year and [ruinAge] no longer
    changes; the result's [ruined] says whether some year record reports
    ruin and its [ruinAge] is the age of the first year record that does.
    A year record that reports ruin is followed by year records that report
    ruin as long as the withdrawals recorded in those later years are not
    negative. *)
Theorem ruin_sticky :
  forall s inputs det e,
    (forall j k,
        (j <= k)%nat ->
        Loop.ruined (fst (stateAt s inputs det e j)) = true ->
        Loop.ruined (fst (stateAt s inputs det e k)) = true
        /\ Loop.ruinAge (fst (stateAt s inputs det e k))
           = Loop.ruinAge (fst (stateAt s inputs det e j)))
    /\ Result.ruined (fst (run s inputs det e))
       = existsb Year.ruined (Result.years (fst (run s inputs det e)))
    /\ Result.ruinAge (fst (run s inputs det e))
       = firstRuin (Result.years (fst (run s inputs det e)))
    /\ (forall k j rk rj,
           (k <= j)%nat ->
           nth_error (Result.years (fst (run s inputs det e))) k = Some rk ->
           nth_error (Result.years (fst (run s inputs det e))) j = Some rj ->
           Year.ruined rk = true ->
           (forall i ri,
               (k < i <= j)%nat ->
               nth_error (Result.years (fst (run s inputs det e))) i = Some ri ->
               0 <= Year.withdrawal ri) ->
           Year.ruined rj = true).
Proof.
  intros s inputs det e. split; [|split; [|split]].
  - intros j k. apply flags_sticky.
  - rewrite run_stateAt. cbn. apply flags_summarise_records.
  - rewrite run_stateAt. cbn. apply flags_summarise_records.
  - intros k j rk rj Hkj Hk Hj Hruin Hw.
    apply run_nth in Hk. destruct Hk as [_ ->].
    apply run_nth in Hj. destruct Hj as [Hjh ->].
    apply (ruined_later s inputs det e k j Hkj Hruin).
    intros i Hi. apply (Hw i _ Hi). apply run_nth. split; [lia | reflexivity].
Qed.

Lemma ruin_sticky_witness :
  (Loop.ruined (fst (stateAt ConstantReal Sample.tightInputs true Sample.quiet 5)) = true
   /\ Loop.ruinAge (fst (stateAt ConstantReal Sample.tightInputs true Sample.quiet 5))
      = Loop.ruinAge (fst (stateAt ConstantReal Sample.tightInputs true Sample.quiet 3)))
  /\ Year.ruined (recordAt ConstantReal Sample.tightInputs true Sample.quiet 4) = true.
Proof.
  destruct (ruin_sticky ConstantReal Sample.tightInputs true Sample.quiet)
    as (Hflag & _ & _ & Hrec).
  split.
  - apply (Hflag 3%nat 5%nat); [lia | vm_compute; reflexivity].
  - apply (Hrec 2%nat 4%nat
             (recordAt ConstantReal Sample.tightInputs true Sample.quiet 2)).
    + lia.
    + apply recordAt_nth. vm_compute. lia.
    + apply recordAt_nth. vm_compute. lia.
    + vm_compute. reflexivity.
    + intros i ri Hi Hn.
      apply (proj1 (run_nth _ _ _ _ _ _)) in Hn. destruct Hn as [_ ->].
      assert (Hcase : i = 3%nat \/ i = 4%nat) by lia.
      destruct Hcase as [-> | ->]; vm_compute; discriminate.
Defined.

(** ** Conservation at zero return (C7) *)

Lemma sumWithdrawals_snoc l r :
  sumWithdrawals (l ++ [r]) = sumWithdrawals l + Year.withdrawal r.
Proof. unfold sumWithdrawals. rewrite fold_left_app. reflexivity. Qed.

Lemma covered_year_conserves s inputs e k :
  expectedReturn inputs == 0 ->
  covered (recordAt s inputs true e k) = true ->
  Loop.portfolio (fst (stateAt s inputs true e (S k)))
  == Loop.portfolio (fst (stateAt s inputs true e k))
     - Year.withdrawal (recordAt s inputs true e k).
Proof.
  intros Hret Hcov. unfold covered in Hcov. apply leb_true in Hcov.
  rewrite record_portfolioStart in Hcov.
  rewrite step_portfolio, record_portfolioEnd.
  unfold closing, afterWithdrawal. rewrite yearReturn_det, Hret.
  cases_cmp; [lra|]. rewrite div_100. ring.
Qed.

Lemma conservation_upto s inputs e k :
  expectedReturn inputs == 0 ->
  (forall j, (j < k)%nat -> covered (recordAt s inputs true e j) = true) ->
  sumWithdrawals (Loop.yearResults (fst (stateAt s inputs true e k)))
  + Loop.portfolio (fst (stateAt s inputs true e k))
  == startingPortfolio inputs.
Proof.
  intros Hret. induction k as [|k IH]; intros Hcov.
  - destruct s; cbn; ring.
  - rewrite step_yearResults, sumWithdrawals_snoc.
    rewrite (covered_year_conserves s inputs e k Hret) by (apply Hcov; lia).
    rewrite <- IH by (intros j Hj; apply Hcov; lia). ring.
Qed.

(** C7, as stated, fails: once the balance is overdrawn the years keep
    recording the full withdrawal.  Constant real on 100,000 with a floor of
    40,000 over five years records five withdrawals of 40,000 and closes
    on 0. *)
Lemma conservation_fails_after_overdraft :
  ~ (forall s inputs e,
        expectedReturn inputs == 0 ->
        volatility inputs == 0 ->
        inflationRate inputs == 0 ->
        socialSecurity inputs == 0 ->
        Qabs (Result.totalWithdrawals (fst (run s inputs true e))
              + Result.finalBalance (fst (run s inputs true e))
              - startingPortfolio inputs) <= 1).
Proof.
  intros H.
  specialize (H ConstantReal Sample.tightInputs Sample.quiet
                ltac:(reflexivity) ltac:(reflexivity) ltac:(reflexivity)
                ltac:(reflexivity)).
  assert (Hfalse : ~ Qabs (Result.totalWithdrawals
                             (fst (run ConstantReal Sample.tightInputs true Sample.quiet))
                           + Result.finalBalance
                               (fst (run ConstantReal Sample.tightInputs true Sample.quiet))
                           - startingPortfolio Sample.tightInputs) <= 1).
  { vm_compute. intros Hle. apply Hle. reflexivity. }
  exact (Hfalse H).
Qed.

(** C7, amended.  For every strategy and every input with
    [expectedReturn = 0], [volatility = 0] (deterministic mode),
    [inflationRate = 0] and [socialSecurity = 0], if no year's withdrawal
    exceeds the balance it is taken from, then [totalWithdrawals +
    finalBalance] equals [startingPortfolio] (exactly, in exact arithmetic;
    so also to within 1). *)
Theorem conservation_without_overdraft :
  forall s inputs e,
    expectedReturn inputs == 0 ->
    volatility inputs == 0 ->
    inflationRate inputs == 0 ->
    socialSecurity inputs == 0 ->
    forallb covered (Result.years (fst (run s inputs true e))) = true ->
    Result.totalWithdrawals (fst (run s inputs true e))
    + Result.finalBalance (fst (run s inputs true e))
    == startingPortfolio inputs
    /\ Qabs (Result.totalWithdrawals (fst (run s inputs true e))
             + Result.finalBalance (fst (run s inputs true e))
             - startingPortfolio inputs) <= 1.
Proof.
  intros s inputs e Hret _ _ _ Hcov.
  assert (Heq : Result.totalWithdrawals (fst (run s inputs true e))
                + Result.finalBalance (fst (run s inputs true e))
                == startingPortfolio inputs).
  { rewrite forallb_forall in Hcov.
    rewrite run_stateAt. cbn [fst Result.totalWithdrawals Result.finalBalance finish].
    apply (conservation_upto s inputs e (horizon inputs) Hret).
    intros j Hj. apply Hcov, run_In. exists j. split; [exact Hj | reflexivity]. }
  split; [exact Heq|].
  rewrite Heq. setoid_replace (startingPortfolio inputs - startingPortfolio inputs)
    with 0 by ring. vm_compute. discriminate.
Qed.

Lemma conservation_without_overdraft_witness :
  Result.totalWithdrawals
    (fst (run Guardrails (Sample.flat 1000000 10) true Sample.quiet))
  + Result.finalBalance
      (fst (run Guardrails (Sample.flat 1000000 10) true Sample.quiet))
  == 1000000.
Proof.
  apply (conservation_without_overdraft Guardrails (Sample.flat 1000000 10)
           Sample.quiet); reflexivity.
Defined.

(** A run that is never ruined never overdraws, so it conserves. *)
Lemma not_ruined_covered s inputs det e k :
  Year.ruined (recordAt s inputs det e k) = false ->
  covered (recordAt s inputs det e k) = true.
Proof.
  intros Hr. rewrite record_ruined in Hr. apply leb_false in Hr.
  rewrite record_portfolioEnd in Hr. unfold closing, afterWithdrawal in Hr.
  unfold covered. apply leb_true. rewrite record_portfolioStart.
  destruct (Js.ltb _ 0) eqn:Hover in Hr; [lra|].
  apply ltb_false in Hover. lra.
Qed.

Lemma conservation_when_not_ruined s inputs e :
  expectedReturn inputs == 0 ->
  Result.ruined (fst (run s inputs true e)) = false ->
  Result.totalWithdrawals (fst (run s inputs true e))
  + Result.finalBalance (fst (run s inputs true e))
  == startingPortfolio inputs.
Proof.
  intros Hret Hruin.
  assert (Hex : existsb Year.ruined (Result.years (fst (run s inputs true e))) = false).
  { rewrite <- Hruin, run_stateAt. cbn. symmetry. apply flags_summarise_records. }
  rewrite run_stateAt. cbn [fst Result.totalWithdrawals Result.finalBalance finish].
  apply (conservation_upto s inputs e (horizon inputs) Hret).
  intros j Hj. apply not_ruined_covered.
  destruct (Year.ruined (recordAt s inputs true e j)) eqn:Hrj; [|reflexivity].
  assert (Hin : In (recordAt s inputs true e j) (Result.years (fst (run s inputs true e))))
    by (apply run_In; exists j; split; [exact Hj | reflexivity]).
  assert (Htrue : existsb Year.ruined (Result.years (fst (run s inputs true e))) = true)
    by (apply existsb_exists; eexists; split; [exact Hin | exact Hrj]).
  congruence.
Qed.

(** ** The spending floor and ceiling (C5) *)

Lemma recordedTarget_at s inputs det e k :
  recordedTarget (recordAt s inputs det e k)
  = targetOf s inputs k (fst (stateAt s inputs det e k)).
Proof. unfold recordAt. destruct (stateAt s inputs det e k), s; reflexivity. Qed.











Lemma cap_set inputs :
  0 < Js.orZero (maxSpending inputs) ->
  Js.gtb (Js.orZero (maxSpending inputs)) 0 = true
  /\ Js.isPositive (maxSpending inputs) = true.
Proof.
  intros H. assert (Hg := proj2 (gtb_true _ _) H). split; [exact Hg|].
  destruct (maxSpending inputs); [exact Hg | cbn in H; lra].
Qed.

Lemma cap_unset inputs :
  Js.orZero (maxSpending inputs) <= 0 ->
  Js.gtb (Js.orZero (maxSpending inputs)) 0 = false
  /\ Js.isPositive (maxSpending inputs) = false.
Proof.
  intros H. assert (Hg := proj2 (gtb_false _ _) H). split; [exact Hg|].
  destruct (maxSpending inputs); [exact Hg | reflexivity].
Qed.



Lemma clampSpending_uncapped inputs i t :
  Js.orZero (maxSpending inputs) <= 0 ->
  clampSpending inputs i t = Js.max t (floorAt inputs i).
Proof.
  intros H. unfold clampSpending, inflationAdjustedMaxSpending.
  rewrite (proj1 (cap_unset inputs H)). reflexivity.
Qed.




(** Constant real re-applies only the ceiling inside the loop.  The value it
    carries into a year is at least the ceiling whenever the floor of that
    year is above the ceiling, so that the ceiling is what the year uses. *)
Lemma constantReal_initial inputs :
  Loop.withdrawal (initConstantReal inputs)
  = let floored :=
      Js.max (if Js.isPositive (startingWithdrawal inputs)
              then Js.orZero (startingWithdrawal inputs)
              else startingPortfolio inputs * ((45 # 10) / 100))
        (Js.orZero (minSpending inputs)) in
    if Js.isPositive (maxSpending inputs)
    then Js.min floored (Js.orZero (maxSpending inputs))
    else floored.
Proof. reflexivity. Qed.














(** Below -100% inflation the multiplier is negative, and constant real,
    which does not re-apply the floor inside the loop, goes below it: with
    [inflationRate: -200], a portfolio of 10,000 and a floor of 100, year 2
    has the floor -100 and the target -450. *)
Lemma constantReal_floor_not_reapplied :
  recordedTarget
    (recordAt ConstantReal (Sample.signFlipInputs 0 100) true Sample.quiet 1)
  == -450
  /\ floorAt (Sample.signFlipInputs 0 100) 1 == -100.
Proof. split; vm_compute; reflexivity. Qed.

(** ** Guardrails (C4) *)

#[export] Instance num_gtb_proper : Proper (eq ==> Qeq ==> eq) Js.num_gtb.
Proof.
  intros x ? <- c c' Hc. destruct x; cbn; trivial. now rewrite Hc.
Qed.

#[export] Instance num_ltb_proper : Proper (eq ==> Qeq ==> eq) Js.num_ltb.
Proof.
  intros x ? <- c c' Hc. destruct x; cbn; trivial. now rewrite Hc.
Qed.




#[export] Instance clampRule_proper inputs i : Proper (Qeq ==> Qeq) (clampRule inputs i).
Proof.
  intros x y Hxy. unfold clampRule.
  destruct (Js.gtb _ 0); now rewrite Hxy.
Qed.










(** A balance of [-0]: with a return of -150% every year the balance of
    year 2 is clamped to 0 and closes on [0 * (1 - 1.5) = -0]; the rate of
    year 3 is [50 / -0 = -Infinity], neither guardrail fires, and the base
    withdrawal stays at 50. *)
Lemma guardrails_rate_on_negative_zero :
  Year.currentRate (recordAt Guardrails Sample.collapseInputs true Sample.quiet 2)
  = Some Js.NegInf
  /\ recordedTarget (recordAt Guardrails Sample.collapseInputs true Sample.quiet 2)
     == 50
  /\ Result.totalWithdrawals
       (fst (strategyGuardrails Sample.collapseInputs true Sample.quiet))
     == 200.
Proof. repeat split; vm_compute; reflexivity. Qed.

(** * The rest of the engine *)

(** ** The shape of a run *)

Lemma horizon_zero inputs :
  (planningAge inputs <= retirementAge inputs)%Z -> horizon inputs = 0%nat.
Proof. intros H. unfold horizon. lia. Qed.

(** X1.  A run of any strategy pushes one record per year of the plan,
    [planningAge - retirementAge] of them (none when that is not positive);
    the record at position [k] carries the year index [k] and the age
    [retirementAge + k], an age from the retirement age up to the year
    before the planning age. *)
Theorem records_are_the_years_of_the_plan :
  forall s inputs det e,
    length (Result.years (fst (run s inputs det e)))
    = Z.to_nat (planningAge inputs - retirementAge inputs)
    /\ (forall k r,
          nth_error (Result.years (fst (run s inputs det e))) k = Some r ->
          Year.year r = k
          /\ Year.age r = (retirementAge inputs + Z.of_nat k)%Z
          /\ (retirementAge inputs <= Year.age r < planningAge inputs)%Z).
Proof.
  intros s inputs det e. split.
  - rewrite run_years, length_map, length_seq. reflexivity.
  - intros k r Hr. apply (proj1 (run_nth s inputs det e k r)) in Hr.
    destruct Hr as [Hk ->].
    rewrite record_year, record_age. unfold ageAt, horizon in *.
    repeat split; lia.
Qed.

Lemma records_are_the_years_of_the_plan_witness :
  length (Result.years
            (fst (run Guardrails Sample.crashInputs false (Sample.constant 1))))
  = 5%nat
  /\ Year.year (recordAt Guardrails Sample.crashInputs false (Sample.constant 1) 3)
     = 3%nat
  /\ Year.age (recordAt Guardrails Sample.crashInputs false (Sample.constant 1) 3)
     = 48%Z.
Proof.
  destruct (records_are_the_years_of_the_plan Guardrails Sample.crashInputs false
              (Sample.constant 1)) as [Hlen Hrec].
  split; [exact Hlen|].
  destruct (Hrec 3%nat
              (recordAt Guardrails Sample.crashInputs false (Sample.constant 1) 3)
              (recordAt_nth Guardrails Sample.crashInputs false (Sample.constant 1) 3
                 ltac:(vm_compute; lia)))
    as (Hy & Ha & _).
  split; [exact Hy | exact Ha].
Defined.

(** X2.  When [planningAge <= retirementAge] the loop body never runs: the
    result has no records, the starting portfolio as its final balance, a
    total of 0, no ruin, and the entropy source is handed back untouched,
    in either mode. *)
Theorem empty_plan_returns_the_portfolio :
  forall s inputs det e,
    (planningAge inputs <= retirementAge inputs)%Z ->
    run s inputs det e
    = ({| Result.years := [];
          Result.finalBalance := startingPortfolio inputs;
          Result.totalWithdrawals := 0;
          Result.ruined := false;
          Result.ruinAge := None |}, e).
Proof.
  intros s inputs det e H.
  rewrite run_stateAt, (horizon_zero inputs H).
  destruct s; reflexivity.
Qed.

Lemma empty_plan_returns_the_portfolio_witness :
  run RMD (Sample.flat 1000 0) false (Sample.constant 1)
  = ({| Result.years := [];
        Result.finalBalance := startingPortfolio (Sample.flat 1000 0);
        Result.totalWithdrawals := 0;
        Result.ruined := false;
        Result.ruinAge := None |}, Sample.constant 1).
Proof.
  apply (empty_plan_returns_the_portfolio RMD (Sample.flat 1000 0) false
           (Sample.constant 1)).
  vm_compute. discriminate.
Defined.

(** X3.  The balances of a run form a chain: year 1 opens on the starting
    portfolio, every later year opens on the balance the year before closed
    on, and the final balance is the closing balance of the last year (the
    starting portfolio when there is no year). *)
Theorem balances_chain :
  forall s inputs det e,
    let result := fst (run s inputs det e) in
    (forall k r,
        nth_error (Result.years result) k = Some r ->
        Year.portfolioStart r = openingBalance inputs (Result.years result) k)
    /\ Result.finalBalance result
       = openingBalance inputs (Result.years result) (length (Result.years result)).
Proof.
  intros s inputs det e result. subst result. split.
  - intros k r Hr. apply (proj1 (run_nth s inputs det e k r)) in Hr.
    destruct Hr as [Hk ->]. rewrite record_portfolioStart.
    destruct k as [|j]; cbn [openingBalance].
    + destruct s; reflexivity.
    + rewrite (recordAt_nth s inputs det e j) by lia. apply step_portfolio.
  - rewrite run_years, length_map, length_seq, <- run_years.
    rewrite run_stateAt at 1. cbn [fst finish Result.finalBalance].
    destruct (horizon inputs) as [|n] eqn:Hn; cbn [openingBalance].
    + destruct s; reflexivity.
    + rewrite (recordAt_nth s inputs det e n) by lia. apply step_portfolio.
Qed.

Lemma balances_chain_witness :
  Year.portfolioStart (recordAt VPW Sample.crashInputs true Sample.quiet 2)
  = Year.portfolioEnd (recordAt VPW Sample.crashInputs true Sample.quiet 1).
Proof.
  destruct (balances_chain VPW Sample.crashInputs true Sample.quiet) as [Hchain _].
  rewrite (Hchain 2%nat (recordAt VPW Sample.crashInputs true Sample.quiet 2)
             (recordAt_nth VPW Sample.crashInputs true Sample.quiet 2
                ltac:(vm_compute; lia))).
  cbn [openingBalance].
  rewrite (recordAt_nth VPW Sample.crashInputs true Sample.quiet 1
             ltac:(vm_compute; lia)).
  reflexivity.
Defined.

(** ** The entropy a run consumes *)

Lemma drawn_0 e : drawn e 0 = e.
Proof. destruct e as [t c]. unfold drawn. cbn. now rewrite Nat.add_0_r. Qed.

Lemma stateAt_entropy s inputs det e k :
  snd (stateAt s inputs det e k) = if det then e else drawn e k.
Proof.
  induction k as [|k IH].
  - cbn. destruct det; [reflexivity | now rewrite drawn_0].
  - rewrite stateAt_succ, bodyOf_closeYear, closeYear_eq. cbn [snd].
    rewrite IH. destruct det; [reflexivity|].
    unfold entropyAfter, generateReturn, randomNormal, drawn. cbn.
    now rewrite Nat.add_succ_r.
Qed.

Lemma yearReturn_at s inputs det e k :
  yearReturn inputs det (snd (stateAt s inputs det e k)) = returnOfYear inputs det e k.
Proof.
  rewrite stateAt_entropy. unfold returnOfYear. destruct det; reflexivity.
Qed.

(** X4.  A stochastic run of any strategy draws exactly one normal deviate
    per simulated year, in order: it hands the source back advanced by the
    number of years, and the return recorded for year [k] is the one made
    from the [k]-th deviate after the starting position (the fixed return in
    deterministic mode).  An overdrawn or ruined year still draws its
    deviate. *)
Theorem one_deviate_per_year :
  forall s inputs e,
    snd (run s inputs false e) = drawn e (horizon inputs)
    /\ (forall det k r,
          nth_error (Result.years (fst (run s inputs det e))) k = Some r ->
          Year.returnPct r = returnOfYear inputs det e k * 100).
Proof.
  intros s inputs e. split.
  - rewrite run_stateAt. cbn [snd]. apply stateAt_entropy.
  - intros det k r Hr. apply (proj1 (run_nth s inputs det e k r)) in Hr.
    destruct Hr as [_ ->]. rewrite record_returnPct, yearReturn_at. reflexivity.
Qed.

Lemma one_deviate_per_year_witness :
  Year.returnPct (recordAt ConstantReal Sample.tightInputs false (Sample.constant 1) 4)
  = returnOfYear Sample.tightInputs false (Sample.constant 1) 4 * 100.
Proof.
  destruct (one_deviate_per_year ConstantReal Sample.tightInputs (Sample.constant 1))
    as [_ Hret].
  apply (Hret false 4%nat).
  apply recordAt_nth. vm_compute. lia.
Defined.

(** ** Ruin, the ruin age and the final balance *)

Lemma ruinAge_invariant s inputs det e k :
  match Loop.ruinAge (fst (stateAt s inputs det e k)) with
  | Some a =>
      Loop.ruined (fst (stateAt s inputs det e k)) = true
      /\ (retirementAge inputs <= a < retirementAge inputs + Z.of_nat k)%Z
  | None => Loop.ruined (fst (stateAt s inputs det e k)) = false
  end.
Proof.
  induction k as [|k IH].
  - destruct s; reflexivity.
  - rewrite step_ruined, step_ruinAge, record_age. unfold ageAt.
    destruct (Loop.ruinAge (fst (stateAt s inputs det e k))) as [a|].
    + destruct IH as [-> Ha]. cbn [orb]. split; [reflexivity | lia].
    + rewrite IH. cbn [orb].
      destruct (Year.ruined (recordAt s inputs det e k)); [split; [reflexivity|lia]|].
      reflexivity.
Qed.

(** X5.  The result's [ruinAge] is set exactly when its [ruined] flag is,
    and then it is an age of the plan: at least the retirement age and below
    the planning age.  A run that is not ruined has no ruin age. *)
Theorem ruinAge_is_an_age_of_the_plan :
  forall s inputs det e,
    match Result.ruinAge (fst (run s inputs det e)) with
    | Some a =>
        Result.ruined (fst (run s inputs det e)) = true
        /\ (retirementAge inputs <= a < planningAge inputs)%Z
    | None => Result.ruined (fst (run s inputs det e)) = false
    end.
Proof.
  intros s inputs det e. rewrite run_stateAt. cbn [fst finish Result.ruinAge Result.ruined].
  pose proof (ruinAge_invariant s inputs det e (horizon inputs)) as H.
  destruct (Loop.ruinAge (fst (stateAt s inputs det e (horizon inputs)))) as [a|].
  - destruct H as [Hr Ha]. split; [exact Hr|]. unfold horizon in Ha. lia.
  - exact H.
Qed.

Lemma closing_of_depleted inputs det net st e :
  Loop.portfolio st <= 0 -> 0 <= net -> closing inputs det net st e == 0.
Proof.
  intros Hp Hn. unfold closing, afterWithdrawal. cases_cmp.
  - ring.
  - assert (Hz : Loop.portfolio st - net == 0) by lra. rewrite Hz. ring.
Qed.

Lemma ruined_flag_means_depleted s inputs det e k :
  (forall i, 0 <= Year.withdrawal (recordAt s inputs det e i)) ->
  Loop.ruined (fst (stateAt s inputs det e k)) = true ->
  Loop.portfolio (fst (stateAt s inputs det e k)) <= 0.
Proof.
  intros Hw. induction k as [|k IH].
  - destruct s; discriminate.
  - rewrite step_ruined, step_portfolio. intros H.
    apply orb_true_iff in H. destruct H as [H|H].
    + rewrite record_portfolioEnd.
      rewrite (closing_of_depleted inputs det _ _ _ (IH H) (Hw k)). lra.
    + rewrite record_ruined in H. now apply leb_true in H.
Qed.

Lemma withdrawals_nonneg s inputs det e :
  0 <= Js.orZero (oneTimeExpense inputs) ->
  -100 <= inflationRate inputs ->
  forall i, 0 <= Year.withdrawal (recordAt s inputs det e i).
Proof.
  intros Hote Hinfl i. rewrite record_withdrawal.
  apply netOf_nonneg, oneTimeExpenseThisYear_nonneg; assumption.
Qed.

(** X6.  For a plan of at least one year whose [oneTimeExpense] is missing
    or non-negative and whose [inflationRate] is at least -100, the result's
    [ruined] flag says exactly that the money is gone at the end:
    [ruined] is true if and only if [finalBalance <= 0], for every strategy
    and in either mode. *)
Theorem ruined_iff_nothing_left :
  forall s inputs det e,
    0 <= Js.orZero (oneTimeExpense inputs) ->
    -100 <= inflationRate inputs ->
    (retirementAge inputs < planningAge inputs)%Z ->
    (Result.ruined (fst (run s inputs det e)) = true
     <-> Result.finalBalance (fst (run s inputs det e)) <= 0).
Proof.
  intros s inputs det e Hote Hinfl Hyears.
  rewrite run_stateAt. cbn [fst finish Result.ruined Result.finalBalance].
  split.
  - apply ruined_flag_means_depleted.
    apply withdrawals_nonneg; assumption.
  - destruct (horizon inputs) as [|n] eqn:Hn; [unfold horizon in Hn; lia|].
    rewrite step_ruined, step_portfolio, record_ruined. intros H.
    apply orb_true_iff. right. now apply leb_true.
Qed.

Lemma ruined_iff_nothing_left_witness :
  Result.ruined (fst (run ConstantReal Sample.tightInputs true Sample.quiet)) = true
  <-> Result.finalBalance (fst (run ConstantReal Sample.tightInputs true Sample.quiet))
      <= 0.
Proof.
  apply (ruined_iff_nothing_left ConstantReal Sample.tightInputs true Sample.quiet).
  - vm_compute. discriminate.
  - vm_compute. discriminate.
  - vm_compute. reflexivity.
Defined.

(** ** The percentage the variable-percentage strategy applies *)

Lemma vpwPercentage_range (y : Z) :
  (1 <= y)%Z -> 42 # 10 <= vpwPercentage y 60 /\ vpwPercentage y 60 <= 28.
Proof.
  intros Hy. unfold vpwPercentage.
  repeat match goal with
         | |- context [(?b <=? y)%Z] => destruct (Z.leb_spec b y)
         end; try (split; vm_compute; discriminate).
  assert (Hc : y = 1%Z \/ y = 2%Z \/ y = 3%Z \/ y = 4%Z) by lia.
  destruct Hc as [-> | [-> | [-> | ->]]]; split; vm_compute; discriminate.
Qed.

Lemma recordAt_VPW inputs det e k :
  Year.vpwPct (recordAt VPW inputs det e k)
  = Some (vpwPercentage (planningAge inputs - ageAt inputs k) 60).
Proof. unfold recordAt. destruct (stateAt VPW inputs det e k). reflexivity. Qed.

Lemma run_VPW inputs det e : run VPW inputs det e = strategyVPW inputs det e.
Proof. reflexivity. Qed.

(** X7.  In every year record of [strategyVPW] the percentage applied
    ([vpwPct]) is the table's value for the years left to the planning age,
    which is at least 1 inside the loop; hence it lies between 4.2 and 28,
    the cap of 100 in the table's last line is never reached, and the
    line's value for zero or negative years remaining is never used. *)
Theorem vpwPct_between_4_2_and_28 :
  forall inputs det e r,
    In r (Result.years (fst (strategyVPW inputs det e))) ->
    (1 <= planningAge inputs - Year.age r)%Z
    /\ exists pct,
         Year.vpwPct r = Some pct
         /\ pct = vpwPercentage (planningAge inputs - Year.age r) 60
         /\ 42 # 10 <= pct /\ pct <= 28.
Proof.
  intros inputs det e r Hin. rewrite <- run_VPW in Hin.
  apply (proj1 (run_In VPW inputs det e r)) in Hin. destruct Hin as (k & Hk & ->).
  rewrite record_age, recordAt_VPW.
  assert (Hy : (1 <= planningAge inputs - ageAt inputs k)%Z)
    by (unfold ageAt, horizon in *; lia).
  split; [exact Hy|].
  eexists. split; [reflexivity|]. split; [reflexivity|].
  apply vpwPercentage_range. exact Hy.
Qed.

Lemma vpwPct_between_4_2_and_28_witness :
  exists pct,
    Year.vpwPct (recordAt VPW Sample.crashInputs true Sample.quiet 4) = Some pct
    /\ 42 # 10 <= pct /\ pct <= 28.
Proof.
  destruct (vpwPct_between_4_2_and_28 Sample.crashInputs true Sample.quiet
              (recordAt VPW Sample.crashInputs true Sample.quiet 4))
    as (_ & pct & Hpct & _ & Hlo & Hhi).
  - rewrite <- run_VPW. apply recordAt_In. vm_compute. lia.
  - exists pct. split; [exact Hpct|]. split; [exact Hlo | exact Hhi].
Defined.

(** ** The strategies that spend a share of the balance *)

Lemma not_positive (x : option Q) :
  Js.orZero x <= 0 -> Js.isPositive x = false /\ Js.gtb (Js.orZero x) 0 = false.
Proof.
  intros H. assert (Hg := proj2 (gtb_false _ _) H). split; [|exact Hg].
  destruct x; [exact Hg | reflexivity].
Qed.

Lemma year1Override_unset inputs i natural :
  Js.orZero (startingWithdrawal inputs) <= 0 ->
  year1Override inputs i natural = natural.
Proof.
  intros H. unfold year1Override.
  rewrite (proj2 (not_positive _ H)), andb_false_r. reflexivity.
Qed.

Lemma ssAt_nonneg inputs age :
  0 <= socialSecurity inputs -> -100 <= inflationRate inputs -> 0 <= ssAt inputs age.
Proof.
  intros Hss Hinfl. unfold ssAt.
  destruct (ssStartAge inputs <=? age)%Z; [|lra].
  pose proof (pow_nonneg (inflationMultiplier inputs)
                (Z.max 0 (age - ssStartAge inputs))
                (inflationMultiplier_nonneg inputs Hinfl)).
  nra.
Qed.

Lemma oneTimeExpenseThisYear_nonpos inputs i :
  Js.orZero (oneTimeExpense inputs) <= 0 ->
  -100 <= inflationRate inputs ->
  oneTimeExpenseThisYear inputs i <= 0.
Proof.
  intros Hote Hinfl. unfold oneTimeExpenseThisYear.
  destruct ((Z.of_nat i + 1) mod 5 =? 0)%Z; [|lra].
  pose proof (pow_nonneg (inflationMultiplier inputs) (Z.of_nat i)
                (inflationMultiplier_nonneg inputs Hinfl)).
  nra.
Qed.

(** Without a floor the clamp leaves a non-negative target at or below
    itself, and not below zero. *)
Lemma clampSpending_without_floor inputs i t :
  Js.orZero (minSpending inputs) <= 0 ->
  -100 <= inflationRate inputs ->
  0 <= t ->
  0 <= clampSpending inputs i t /\ clampSpending inputs i t <= t.
Proof.
  intros Hmin Hinfl Ht.
  pose proof (pow_nonneg (inflationMultiplier inputs) (Z.of_nat i)
                (inflationMultiplier_nonneg inputs Hinfl)) as Hpow.
  assert (Hfloor : inflationAdjustedMinSpending inputs i <= 0)
    by (unfold inflationAdjustedMinSpending; nra).
  unfold clampSpending, inflationAdjustedMaxSpending, minCeiling.
  set (f := inflationAdjustedMinSpending inputs i) in *.
  destruct (Js.gtb (Js.orZero (maxSpending inputs)) 0) eqn:Hcap.
  - apply gtb_true in Hcap.
    assert (Hc : 0 <= Js.orZero (maxSpending inputs)
                      * Js.pow (inflationMultiplier inputs) (Z.of_nat i)) by nra.
    set (c := Js.orZero (maxSpending inputs)
              * Js.pow (inflationMultiplier inputs) (Z.of_nat i)) in *.
    destruct (max_cases t f) as [[? ->]|[? ->]];
      destruct (min_cases f c) as [[? Hq]|[? Hq]];
      destruct (min_cases t c) as [[? Hq']|[? Hq']];
      rewrite ?Hq, ?Hq'; split; lra.
  - destruct (max_cases t f) as [[? ->]|[? ->]]; split; lra.
Qed.

Lemma rmd_share (p : Q) (le : Z) :
  (2 <= le)%Z -> 0 <= p ->
  0 <= p / inject_Z le /\ p / inject_Z le <= p * (1 # 2).
Proof.
  intros Hle Hp.
  assert (HL : 2 <= inject_Z le).
  { change 2 with (inject_Z 2). rewrite <- Zle_Qle. exact Hle. }
  assert (Hx : p / inject_Z le * inject_Z le == p).
  { field. lra. }
  set (x := p / inject_Z le) in *. set (L := inject_Z le) in *.
  assert (Hx0 : 0 <= x).
  { destruct (Qlt_le_dec x 0) as [Hneg|]; [|assumption]. nra. }
  split; [exact Hx0 | nra].
Qed.

(** The target of a balance-driven strategy is a share of at most one half
    of the balance the year opens on. *)
Lemma target_is_a_share s inputs k st :
  balanceDriven s = true ->
  (k < horizon inputs)%nat ->
  Js.orZero (startingWithdrawal inputs) <= 0 ->
  Js.orZero (minSpending inputs) <= 0 ->
  -100 <= inflationRate inputs ->
  0 <= Loop.portfolio st ->
  0 <= targetOf s inputs k st
  /\ targetOf s inputs k st <= Loop.portfolio st * (1 # 2).
Proof.
  intros Hs Hk Hsw Hmin Hinfl Hp.
  assert (Hnat : forall t, 0 <= t -> t <= Loop.portfolio st * (1 # 2) ->
            0 <= clampSpending inputs k (year1Override inputs k t)
            /\ clampSpending inputs k (year1Override inputs k t)
               <= Loop.portfolio st * (1 # 2)).
  { intros t Ht0 Ht. rewrite (year1Override_unset inputs k t Hsw).
    destruct (clampSpending_without_floor inputs k t Hmin Hinfl Ht0). split; lra. }
  destruct s; try discriminate; cbn [targetOf]; apply Hnat.
  - rewrite div_100. lra.
  - rewrite div_100. lra.
  - destruct (vpwPercentage_range (planningAge inputs - ageAt inputs k))
      as [Hlo Hhi]; [unfold ageAt, horizon in *; lia|].
    rewrite div_100. nra.
  - destruct (vpwPercentage_range (planningAge inputs - ageAt inputs k))
      as [Hlo Hhi]; [unfold ageAt, horizon in *; lia|].
    rewrite div_100. nra.
  - apply rmd_share; [apply lifeExpectancy_ge_2 | exact Hp].
  - apply rmd_share; [apply lifeExpectancy_ge_2 | exact Hp].
Qed.

Lemma netOf_le_target inputs i target :
  0 <= ssAt inputs (ageAt inputs i) ->
  oneTimeExpenseThisYear inputs i <= 0 ->
  0 <= target ->
  netOf inputs i target <= target.
Proof.
  intros Hss Hote Ht. unfold netOf.
  destruct (max_cases 0 (target - ssAt inputs (ageAt inputs i))) as [[? ->]|[? ->]]; lra.
Qed.

Lemma share_keeps_balance_positive s inputs det e k :
  balanceDriven s = true ->
  0 < startingPortfolio inputs ->
  Js.orZero (startingWithdrawal inputs) <= 0 ->
  Js.orZero (minSpending inputs) <= 0 ->
  Js.orZero (oneTimeExpense inputs) <= 0 ->
  0 <= socialSecurity inputs ->
  -100 <= inflationRate inputs ->
  (forall j, (j < horizon inputs)%nat -> -1 < returnOfYear inputs det e j) ->
  (k <= horizon inputs)%nat ->
  0 < Loop.portfolio (fst (stateAt s inputs det e k)).
Proof.
  intros Hs HP Hsw Hmin Hote Hss Hinfl Hret.
  induction k as [|k IH]; intros Hk.
  - destruct s; exact HP.
  - specialize (IH ltac:(lia)).
    rewrite step_portfolio, record_portfolioEnd, record_withdrawal.
    unfold closing, afterWithdrawal. rewrite yearReturn_at.
    specialize (Hret k ltac:(lia)).
    set (st := fst (stateAt s inputs det e k)) in *.
    destruct (target_is_a_share s inputs k st Hs ltac:(lia) Hsw Hmin Hinfl
                ltac:(lra)) as [Ht0 Ht].
    pose proof (netOf_le_target inputs k (targetOf s inputs k st)
                  (ssAt_nonneg inputs _ Hss Hinfl)
                  (oneTimeExpenseThisYear_nonpos inputs k Hote Hinfl) Ht0) as Hnet.
    set (net := netOf inputs k (targetOf s inputs k st)) in *.
    cases_cmp; [lra|]. nra.
Qed.

(** X8.  Constant percent, VPW and RMD spend at most half of the balance a
    year opens on.  So on a positive starting portfolio, with no positive
    [startingWithdrawal], no positive [minSpending], no positive
    [oneTimeExpense], a non-negative Social Security benefit, an inflation
    rate of at least -100 and every year's return above -100%, they never
    run out of money: no year overdraws, every closing balance and the
    final balance are positive, and the result reports no ruin. *)
Theorem share_of_balance_never_ruins :
  forall s inputs det e,
    balanceDriven s = true ->
    0 < startingPortfolio inputs ->
    Js.orZero (startingWithdrawal inputs) <= 0 ->
    Js.orZero (minSpending inputs) <= 0 ->
    Js.orZero (oneTimeExpense inputs) <= 0 ->
    0 <= socialSecurity inputs ->
    -100 <= inflationRate inputs ->
    (forall j, (j < horizon inputs)%nat -> -1 < returnOfYear inputs det e j) ->
    Result.ruined (fst (run s inputs det e)) = false
    /\ Result.ruinAge (fst (run s inputs det e)) = None
    /\ 0 < Result.finalBalance (fst (run s inputs det e))
    /\ (forall r,
          In r (Result.years (fst (run s inputs det e))) ->
          Year.withdrawal r <= Year.portfolioStart r * (1 # 2)
          /\ 0 < Year.portfolioEnd r
          /\ Year.ruined r = false).
Proof.
  intros s inputs det e Hs HP Hsw Hmin Hote Hss Hinfl Hret.
  pose proof (share_keeps_balance_positive s inputs det e) as Hpos.
  specialize (fun k => Hpos k Hs HP Hsw Hmin Hote Hss Hinfl Hret).
  assert (Hrec : forall k, (k < horizon inputs)%nat ->
            Year.withdrawal (recordAt s inputs det e k)
            <= Year.portfolioStart (recordAt s inputs det e k) * (1 # 2)
            /\ 0 < Year.portfolioEnd (recordAt s inputs det e k)
            /\ Year.ruined (recordAt s inputs det e k) = false).
  { intros k Hk.
    assert (Hend : 0 < Year.portfolioEnd (recordAt s inputs det e k)).
    { rewrite <- step_portfolio. apply Hpos. lia. }
    split; [|split; [exact Hend|]].
    - rewrite record_withdrawal, record_portfolioStart.
      set (st := fst (stateAt s inputs det e k)).
      pose proof (Hpos k ltac:(lia)) as Hst. fold st in Hst.
      destruct (target_is_a_share s inputs k st Hs Hk Hsw Hmin Hinfl
                  ltac:(lra)) as [Ht0 Ht].
      pose proof (netOf_le_target inputs k (targetOf s inputs k st)
                    (ssAt_nonneg inputs _ Hss Hinfl)
                    (oneTimeExpenseThisYear_nonpos inputs k Hote Hinfl) Ht0).
      lra.
    - rewrite record_ruined. now apply leb_false. }
  assert (Hflag : Result.ruined (fst (run s inputs det e)) = false).
  { rewrite run_stateAt. cbn [fst finish Result.ruined].
    destruct (flags_summarise_records s inputs det e (horizon inputs)) as [-> _].
    rewrite stateAt_yearResults.
    apply not_true_is_false. intros Hex.
    apply existsb_exists in Hex. destruct Hex as (r & Hin & Hr).
    apply in_map_iff in Hin. destruct Hin as (k & <- & Hk). apply in_seq in Hk.
    destruct (Hrec k ltac:(lia)) as (_ & _ & Hnot). congruence. }
  split; [exact Hflag|]. split; [|split].
  - pose proof (ruinAge_invariant s inputs det e (horizon inputs)) as Hage.
    rewrite run_stateAt in *. cbn [fst finish Result.ruined Result.ruinAge] in *.
    destruct (Loop.ruinAge (fst (stateAt s inputs det e (horizon inputs))));
      [destruct Hage; congruence | reflexivity].
  - rewrite run_stateAt. cbn [fst finish Result.finalBalance]. apply Hpos. lia.
  - intros r Hin. apply (proj1 (run_In s inputs det e r)) in Hin.
    destruct Hin as (k & Hk & ->). apply Hrec. exact Hk.
Qed.

Lemma share_of_balance_never_ruins_witness :
  Result.ruined (fst (run VPW Sample.crashInputs true Sample.quiet)) = false
  /\ Result.ruinAge (fst (run VPW Sample.crashInputs true Sample.quiet)) = None
  /\ 0 < Result.finalBalance (fst (run VPW Sample.crashInputs true Sample.quiet)).
Proof.
  destruct (share_of_balance_never_ruins VPW Sample.crashInputs true Sample.quiet)
    as (H1 & H2 & H3 & _).
  - reflexivity.
  - vm_compute. reflexivity.
  - vm_compute. discriminate.
  - vm_compute. discriminate.
  - vm_compute. discriminate.
  - vm_compute. discriminate.
  - vm_compute. discriminate.
  - intros j _. vm_compute. reflexivity.
  - split; [exact H1|]. split; [exact H2 | exact H3].
Defined.

(** ** The base withdrawal of constant real *)

Lemma constantReal_initial_le_cap inputs :
  0 < Js.orZero (maxSpending inputs) ->
  Loop.withdrawal (initConstantReal inputs) <= Js.orZero (maxSpending inputs).
Proof.
  intros Hcap. rewrite constantReal_initial. cbn zeta.
  rewrite (proj2 (cap_set inputs Hcap)). apply min_r.
Qed.

Lemma constantReal_closed_form inputs det e k :
  Js.orZero (maxSpending inputs) <= 0 \/ -100 <= inflationRate inputs ->
  Loop.withdrawal (fst (stateAt ConstantReal inputs det e k))
  == Loop.withdrawal (initConstantReal inputs)
     * Js.pow (inflationMultiplier inputs) (Z.of_nat k)
  /\ targetOf ConstantReal inputs k (fst (stateAt ConstantReal inputs det e k))
     == Loop.withdrawal (initConstantReal inputs)
        * Js.pow (inflationMultiplier inputs) (Z.of_nat k).
Proof.
  intros Hyp. revert k.
  assert (Htarget : forall k w,
            w == Loop.withdrawal (initConstantReal inputs)
                 * Js.pow (inflationMultiplier inputs) (Z.of_nat k) ->
            (if Js.gtb (Js.orZero (maxSpending inputs)) 0
             then Js.min w (Js.orZero (maxSpending inputs)
                            * Js.pow (inflationMultiplier inputs) (Z.of_nat k))
             else w)
            == Loop.withdrawal (initConstantReal inputs)
               * Js.pow (inflationMultiplier inputs) (Z.of_nat k)).
  { intros k w Hw.
    destruct (Js.gtb (Js.orZero (maxSpending inputs)) 0) eqn:Hcap; [|exact Hw].
    apply gtb_true in Hcap.
    destruct Hyp as [Hno|Hinfl]; [lra|].
    pose proof (constantReal_initial_le_cap inputs Hcap) as Hle.
    pose proof (pow_nonneg (inflationMultiplier inputs) (Z.of_nat k)
                  (inflationMultiplier_nonneg inputs Hinfl)) as Hpow.
    set (c := Js.orZero (maxSpending inputs)
              * Js.pow (inflationMultiplier inputs) (Z.of_nat k)).
    assert (Hwc : w <= c) by (subst c; rewrite Hw; nra).
    destruct (min_cases w c) as [[? ->]|[? ->]]; [exact Hw | lra]. }
  intros k. induction k as [|k [IHw IHt]].
  - assert (H0 : Loop.withdrawal (fst (stateAt ConstantReal inputs det e 0))
                 == Loop.withdrawal (initConstantReal inputs)
                    * Js.pow (inflationMultiplier inputs) (Z.of_nat 0)).
    { rewrite pow_0. change (fst (stateAt ConstantReal inputs det e 0))
        with (initConstantReal inputs). ring. }
    split; [exact H0|]. cbn [targetOf]. apply Htarget. exact H0.
  - assert (Hw : Loop.withdrawal (fst (stateAt ConstantReal inputs det e (S k)))
                 == Loop.withdrawal (initConstantReal inputs)
                    * Js.pow (inflationMultiplier inputs) (Z.of_nat (S k))).
    { rewrite step_withdrawal. cbn [carriedOf]. rewrite IHt, pow_succ. ring. }
    split; [exact Hw|]. cbn [targetOf]. apply Htarget. exact Hw.
Qed.

Lemma run_ConstantReal inputs det e :
  run ConstantReal inputs det e = strategyConstantReal inputs det e.
Proof. reflexivity. Qed.

Lemma recordAt_ConstantReal inputs det e k :
  Year.baseWithdrawal (recordAt ConstantReal inputs det e k)
  = Some (targetOf ConstantReal inputs k (fst (stateAt ConstantReal inputs det e k))).
Proof. unfold recordAt. destruct (stateAt ConstantReal inputs det e k). reflexivity. Qed.

(** X9.  Constant real follows a fixed schedule: the base withdrawal
    recorded in year [k] is the initial withdrawal (the starting withdrawal
    or 4.5% of the portfolio, floored and capped once) times the inflation
    multiplier to the power [k], whatever the returns and the balance, also
    after ruin.  This holds when no ceiling is set or the inflation rate is
    at least -100. *)
Theorem constantReal_base_grows_with_inflation :
  forall inputs det e k r,
    Js.orZero (maxSpending inputs) <= 0 \/ -100 <= inflationRate inputs ->
    nth_error (Result.years (fst (strategyConstantReal inputs det e))) k = Some r ->
    exists base,
      Year.baseWithdrawal r = Some base
      /\ base == Loop.withdrawal (initConstantReal inputs)
                 * Js.pow (inflationMultiplier inputs) (Z.of_nat k).
Proof.
  intros inputs det e k r Hyp Hr. rewrite <- run_ConstantReal in Hr.
  apply (proj1 (run_nth ConstantReal inputs det e k r)) in Hr.
  destruct Hr as [_ ->]. rewrite recordAt_ConstantReal.
  eexists. split; [reflexivity|].
  apply (constantReal_closed_form inputs det e k Hyp).
Qed.

Lemma constantReal_base_grows_with_inflation_witness :
  exists base,
    Year.baseWithdrawal
      (recordAt ConstantReal Sample.overrideAboveCap false (Sample.constant (-3)) 2)
    = Some base
    /\ base == Loop.withdrawal (initConstantReal Sample.overrideAboveCap)
               * Js.pow (inflationMultiplier Sample.overrideAboveCap) (Z.of_nat 2).
Proof.
  apply (constantReal_base_grows_with_inflation Sample.overrideAboveCap false
           (Sample.constant (-3)) 2).
  - right. vm_compute. discriminate.
  - rewrite <- run_ConstantReal. apply recordAt_nth. vm_compute. lia.
Defined.

(** ** The copies of the engine *)

Lemma clampSpending_floor_only inputs i t :
  Js.orZero (maxSpending inputs) <= 0 ->
  clampSpending inputs i t = Js.max t (inflationAdjustedMinSpending inputs i).
Proof. intros H. now rewrite clampSpending_uncapped. Qed.

Lemma applyGuardrails_unskipped inputs i rate portfolio w :
  Js.orZero (startingWithdrawal inputs) <= 0 ->
  applyGuardrails inputs i rate portfolio w
  = if Js.num_gtb rate upperGuardrail
    then w * (1 - adjustmentFactor)
    else if Js.num_ltb rate lowerGuardrail && Js.gtb portfolio 0
    then w * (1 + adjustmentFactor)
    else w.
Proof.
  intros H. unfold applyGuardrails.
  rewrite (proj1 (not_positive _ H)), andb_false_r. reflexivity.
Qed.

Lemma older_bodies_agree s inputs det i st e :
  Js.orZero (startingWithdrawal inputs) <= 0 ->
  Js.orZero (maxSpending inputs) <= 0 ->
  match s with
  | ConstantReal => Part000.bodyConstantReal inputs det i st e
  | ConstantPercent => Part000.bodyConstantPercent inputs det i st e
  | VPW => Part000.bodyVPW inputs det i st e
  | Guardrails => Part000.bodyGuardrails inputs det i st e
  | RMD => Part000.bodyRMD inputs det i st e
  end = bodyOf s inputs det i st e.
Proof.
  intros Hsw Hmax.
  destruct s; cbn [bodyOf].
  - unfold Part000.bodyConstantReal, bodyConstantReal.
    now rewrite (proj2 (not_positive _ Hmax)).
  - unfold Part000.bodyConstantPercent, bodyConstantPercent.
    now rewrite year1Override_unset, clampSpending_floor_only.
  - unfold Part000.bodyVPW, bodyVPW.
    now rewrite year1Override_unset, clampSpending_floor_only.
  - unfold Part000.bodyGuardrails, bodyGuardrails.
    now rewrite applyGuardrails_unskipped, clampSpending_floor_only.
  - unfold Part000.bodyRMD, bodyRMD.
    now rewrite year1Override_unset, clampSpending_floor_only.
Qed.

Lemma older_inits_agree inputs :
  Js.orZero (startingWithdrawal inputs) <= 0 ->
  Js.orZero (maxSpending inputs) <= 0 ->
  Part000.initConstantReal inputs = initConstantReal inputs
  /\ Part000.initGuardrails inputs = initGuardrails inputs.
Proof.
  intros Hsw Hmax.
  destruct (not_positive _ Hsw) as [Hsw1 _].
  destruct (not_positive _ Hmax) as [Hmax1 Hmax2].
  unfold Part000.initConstantReal, initConstantReal,
    Part000.initGuardrails, initGuardrails.
  now rewrite Hsw1, Hmax1, Hmax2.
Qed.

(** X10.  The five strategies of the older suite's engine and those of the
    comprehensive suite's are the same functions on every input whose
    [startingWithdrawal] and [maxSpending] are absent, zero or negative:
    same records, same final balance, total, ruin flag and ruin age, and the
    same use of the entropy source, in deterministic and in stochastic
    mode. *)
Theorem older_engine_agrees_without_override_and_cap :
  forall s inputs det e,
    Js.orZero (startingWithdrawal inputs) <= 0 ->
    Js.orZero (maxSpending inputs) <= 0 ->
    Part000.run s inputs det e = run s inputs det e.
Proof.
  intros s inputs det e Hsw Hmax.
  destruct (older_inits_agree inputs Hsw Hmax) as [Hcr Hgr].
  pose proof (fun s i st e0 => older_bodies_agree s inputs det i st e0 Hsw Hmax)
    as Hbody.
  destruct s; cbn [Part000.run run].
  - unfold Part000.strategyConstantReal, strategyConstantReal. rewrite Hcr.
    now rewrite (forLoop_ext _ _ (Hbody ConstantReal)).
  - unfold Part000.strategyConstantPercent, strategyConstantPercent.
    now rewrite (forLoop_ext _ _ (Hbody ConstantPercent)).
  - unfold Part000.strategyVPW, strategyVPW.
    now rewrite (forLoop_ext _ _ (Hbody VPW)).
  - unfold Part000.strategyGuardrails, strategyGuardrails. rewrite Hgr.
    now rewrite (forLoop_ext _ _ (Hbody Guardrails)).
  - unfold Part000.strategyRMD, strategyRMD.
    now rewrite (forLoop_ext _ _ (Hbody RMD)).
Qed.

Lemma older_engine_agrees_without_override_and_cap_witness :
  Part000.run Guardrails Sample.crashInputs false (Sample.constant 1)
  = run Guardrails Sample.crashInputs false (Sample.constant 1).
Proof.
  apply (older_engine_agrees_without_override_and_cap Guardrails Sample.crashInputs
           false (Sample.constant 1)).
  - vm_compute. discriminate.
  - vm_compute. discriminate.
Defined.

Lemma runner_init_agrees inputs minSp maxSp start :
  Js.orZero start <= 0 ->
  Js.orZero maxSp <= 0 ->
  Js.orZero minSp < TestRunner.Inputs.startingPortfolio inputs * ((45 # 10) / 100) ->
  TestRunner.initConstantReal inputs
  = initConstantReal (TestRunner.withSpendingKeys inputs minSp maxSp start).
Proof.
  intros Hsw Hmax Hmin. unfold TestRunner.initConstantReal, initConstantReal.
  cbn [TestRunner.withSpendingKeys startingWithdrawal maxSpending minSpending
       startingPortfolio].
  rewrite (proj1 (not_positive start Hsw)), (proj1 (not_positive maxSp Hmax)).
  unfold Js.max. rewrite (proj2 (leb_false _ _) Hmin). reflexivity.
Qed.

Lemma runner_body_agrees inputs minSp maxSp start det i st e :
  Js.orZero maxSp <= 0 ->
  TestRunner.bodyConstantReal inputs det i st e
  = bodyConstantReal (TestRunner.withSpendingKeys inputs minSp maxSp start) det i st e.
Proof.
  intros Hmax. unfold TestRunner.bodyConstantReal, bodyConstantReal.
  cbn [TestRunner.withSpendingKeys maxSpending].
  rewrite (proj2 (not_positive maxSp Hmax)). reflexivity.
Qed.

(** X11.  The [strategyConstantReal] of the first test runner reads
    neither [minSpending], [maxSpending] nor [startingWithdrawal], and reads
    [oneTimeExpense] without a default.  On an input object that has
    [oneTimeExpense], it returns what the comprehensive suite's
    [strategyConstantReal] returns on the same object whenever that object's
    [startingWithdrawal] and [maxSpending] are absent or not positive and
    its [minSpending] is below 4.5% of the starting portfolio: same records,
    totals, flags and entropy, in either mode. *)
Theorem first_runner_constantReal_agrees :
  forall inputs minSp maxSp start det e,
    Js.orZero start <= 0 ->
    Js.orZero maxSp <= 0 ->
    Js.orZero minSp < TestRunner.Inputs.startingPortfolio inputs * ((45 # 10) / 100) ->
    TestRunner.strategyConstantReal inputs det e
    = strategyConstantReal (TestRunner.withSpendingKeys inputs minSp maxSp start) det e.
Proof.
  intros inputs minSp maxSp start det e Hsw Hmax Hmin.
  unfold TestRunner.strategyConstantReal, strategyConstantReal.
  rewrite (runner_init_agrees inputs minSp maxSp start Hsw Hmax Hmin).
  rewrite (forLoop_ext (TestRunner.bodyConstantReal inputs det)
             (bodyConstantReal (TestRunner.withSpendingKeys inputs minSp maxSp start)
                det)).
  - reflexivity.
  - intros i st e0. apply runner_body_agrees. exact Hmax.
Qed.

Lemma first_runner_constantReal_agrees_witness :
  TestRunner.strategyConstantReal Sample.runnerInputs false (Sample.constant 2)
  = strategyConstantReal
      (TestRunner.withSpendingKeys Sample.runnerInputs (Some 40000) None None)
      false (Sample.constant 2).
Proof.
  apply (first_runner_constantReal_agrees Sample.runnerInputs (Some 40000) None None
           false (Sample.constant 2)).
  - vm_compute. discriminate.
  - vm_compute. discriminate.
  - vm_compute. reflexivity.
Defined.

(** ** The percentile estimator *)

Lemma ascending_tail a l : ascending (a :: l) = true -> ascending l = true.
Proof.
  destruct l as [|b l]; [reflexivity|].
  cbn [ascending]. intros H. apply andb_true_iff in H. apply H.
Qed.

Lemma ascending_head l : forall a j y,
  ascending (a :: l) = true -> nth_error l j = Some y -> a <= y.
Proof.
  induction l as [|b l IH]; intros a j y Hasc Hy.
  - destruct j; discriminate.
  - assert (Hab : a <= b).
    { cbn [ascending] in Hasc. apply andb_true_iff in Hasc.
      apply leb_true. apply Hasc. }
    destruct j as [|j]; cbn in Hy.
    + injection Hy as <-. exact Hab.
    + apply Qle_trans with b; [exact Hab|].
      apply (IH b j y); [apply (ascending_tail a _ Hasc) | exact Hy].
Qed.

Lemma ascending_nth l : forall i j x y,
  ascending l = true -> (i <= j)%nat ->
  nth_error l i = Some x -> nth_error l j = Some y -> x <= y.
Proof.
  induction l as [|a l IH]; intros i j x y Hasc Hij Hx Hy.
  - destruct i; discriminate.
  - destruct i as [|i], j as [|j]; cbn in Hx, Hy.
    + injection Hx as <-. injection Hy as <-. apply Qle_refl.
    + injection Hx as <-. apply (ascending_head l a j y Hasc Hy).
    + lia.
    + apply (IH i j x y); [apply (ascending_tail a l Hasc) | lia | exact Hx | exact Hy].
Qed.

Lemma nth_error_hd (l : list Q) : l <> [] -> nth_error l 0 = Some (hd 0 l).
Proof. destruct l; [congruence | reflexivity]. Qed.

Lemma nth_error_last (l : list Q) :
  l <> [] -> nth_error l (length l - 1) = Some (last l 0).
Proof.
  induction l as [|a l IH]; [congruence|]. intros _.
  destruct l as [|b l]; [reflexivity|].
  replace (length (a :: b :: l) - 1)%nat with (S (length (b :: l) - 1))
    by (cbn [length]; lia).
  cbn [nth_error]. rewrite IH by discriminate. reflexivity.
Qed.

(** [Math.floor] and [Math.ceil] of the same number. *)
Lemma floor_ceiling (x : Q) :
  (Qfloor x <= Qceiling x <= Qfloor x + 1)%Z
  /\ inject_Z (Qfloor x) <= x
  /\ x < inject_Z (Qfloor x) + 1
  /\ (x == inject_Z (Qfloor x) -> Qceiling x = Qfloor x)
  /\ (inject_Z (Qfloor x) < x -> Qceiling x = (Qfloor x + 1)%Z).
Proof.
  pose proof (Qfloor_le x) as Hfl. pose proof (Qlt_floor x) as Hlt.
  pose proof (Qle_ceiling x) as Hce. pose proof (Qceiling_lt x) as Hcl.
  rewrite inject_Z_plus in Hlt. change (inject_Z 1) with 1 in Hlt.
  assert (H1 : (Qfloor x <= Qceiling x)%Z).
  { rewrite Zle_Qle. lra. }
  assert (H2 : (Qceiling x <= Qfloor x + 1)%Z).
  { assert (Hz : (Qceiling x - 1 < Qfloor x + 1)%Z).
    { rewrite Zlt_Qlt, inject_Z_plus. change (inject_Z 1) with 1. lra. }
    lia. }
  repeat split; try assumption.
  - intros Hx. rewrite (Qceiling_comp _ _ Hx). apply Qceiling_Z.
  - intros Hx. assert (Hz : (Qfloor x < Qceiling x)%Z).
    { rewrite Zlt_Qlt. lra. }
    lia.
Qed.

Lemma percentileIndex_range sorted p :
  sorted <> [] -> 0 <= p -> p <= 100 ->
  0 <= percentileIndex sorted p
  /\ percentileIndex sorted p <= inject_Z (Z.of_nat (length sorted) - 1).
Proof.
  intros Hne Hp0 Hp1. unfold percentileIndex.
  assert (Hn : (1 <= Z.of_nat (length sorted))%Z).
  { destruct sorted; [congruence | cbn [length]; lia]. }
  rewrite Zle_Qle in Hn. change (inject_Z 1) with 1 in Hn.
  unfold Z.sub. rewrite inject_Z_plus. change (inject_Z (-1)) with (-1).
  set (n := inject_Z (Z.of_nat (length sorted))) in *.
  rewrite div_100.
  assert (Hq0 : 0 <= p * (1 # 100)) by lra.
  assert (Hq1 : p * (1 # 100) <= 1) by lra.
  set (q := p * (1 # 100)) in *.
  assert (Hm : 0 <= n - 1) by lra.
  set (m := n - 1) in *.
  assert (Hm' : n + -1 == m) by (subst m; ring).
  rewrite Hm'. split; nra.
Qed.

(** Inside the range both neighbours exist. *)
Lemma percentile_in_range sorted p :
  sorted <> [] -> 0 <= p -> p <= 100 ->
  let index := percentileIndex sorted p in
  exists below above,
    nth_error sorted (Z.to_nat (Qfloor index)) = Some below
    /\ nth_error sorted (Z.to_nat (Qceiling index)) = Some above
    /\ (0 <= Qfloor index)%Z
    /\ (Qceiling index <= Z.of_nat (length sorted) - 1)%Z
    /\ percentile sorted p
       = Js.Fin (below * (1 - (index - inject_Z (Qfloor index)))
                 + above * (index - inject_Z (Qfloor index))).
Proof.
  intros Hne Hp0 Hp1 index.
  destruct (percentileIndex_range sorted p Hne Hp0 Hp1) as [Hi0 Hi1].
  fold index in Hi0, Hi1.
  destruct (floor_ceiling index) as ([Hfc Hcf] & _).
  assert (Hf0 : (0 <= Qfloor index)%Z).
  { pose proof (Qfloor_resp_le 0 index Hi0) as H. exact H. }
  assert (Hc1 : (Qceiling index <= Z.of_nat (length sorted) - 1)%Z).
  { pose proof (Qceiling_resp_le _ _ Hi1) as H. now rewrite Qceiling_Z in H. }
  destruct (nth_error sorted (Z.to_nat (Qfloor index))) as [below|] eqn:Hb.
  2:{ apply nth_error_None in Hb. lia. }
  destruct (nth_error sorted (Z.to_nat (Qceiling index))) as [above|] eqn:Ha.
  2:{ apply nth_error_None in Ha. lia. }
  exists below, above. repeat split; try assumption.
  unfold percentile. fold (percentileIndex sorted p). fold index.
  destruct (Nat.eqb_spec (length sorted) 0) as [Hz|_].
  { destruct sorted; [congruence | discriminate]. }
  unfold elementAt.
  destruct (Z.ltb_spec (Qfloor index) 0); [lia|].
  destruct (Z.ltb_spec (Qceiling index) 0); [lia|].
  rewrite Hb, Ha. reflexivity.
Qed.

Lemma convex_between (b a w : Q) :
  b <= a -> 0 <= w -> w <= 1 ->
  b <= b * (1 - w) + a * w /\ b * (1 - w) + a * w <= a.
Proof. intros. split; nra. Qed.

(** X12.  On a non-empty array in ascending order and for [0 <= p <= 100],
    [percentile] returns a number (never [NaN]): both neighbours of the
    fractional rank exist, and the result lies between them, hence between
    the first and the last element of the array. *)
Theorem percentile_between_neighbours :
  forall sorted p,
    ascending sorted = true -> sorted <> [] -> 0 <= p -> p <= 100 ->
    exists v below above,
      percentile sorted p = Js.Fin v
      /\ nth_error sorted (Z.to_nat (Qfloor (percentileIndex sorted p))) = Some below
      /\ nth_error sorted (Z.to_nat (Qceiling (percentileIndex sorted p))) = Some above
      /\ hd 0 sorted <= below /\ below <= v /\ v <= above /\ above <= last sorted 0.
Proof.
  intros sorted p Hasc Hne Hp0 Hp1.
  destruct (percentile_in_range sorted p Hne Hp0 Hp1)
    as (below & above & Hb & Ha & Hf0 & Hc1 & Hv).
  set (index := percentileIndex sorted p) in *.
  destruct (floor_ceiling index) as ([Hfc Hcf] & Hfl & Hlt & _).
  assert (Hba : below <= above).
  { apply (ascending_nth sorted (Z.to_nat (Qfloor index))
             (Z.to_nat (Qceiling index)) below above Hasc ltac:(lia) Hb Ha). }
  destruct (convex_between below above (index - inject_Z (Qfloor index)) Hba
              ltac:(lra) ltac:(lra)) as [Hlo Hhi].
  eexists. exists below, above.
  split; [exact Hv|]. split; [exact Hb|]. split; [exact Ha|].
  split; [|split; [exact Hlo | split; [exact Hhi|]]].
  - apply (ascending_nth sorted 0 (Z.to_nat (Qfloor index)) (hd 0 sorted) below
             Hasc ltac:(lia) (nth_error_hd sorted Hne) Hb).
  - apply (ascending_nth sorted (Z.to_nat (Qceiling index)) (length sorted - 1)
             above (last sorted 0) Hasc ltac:(lia) Ha (nth_error_last sorted Hne)).
Qed.

Lemma percentile_between_neighbours_witness :
  exists v below above,
    percentile [10; 20; 40] 25 = Js.Fin v
    /\ nth_error [10; 20; 40] (Z.to_nat (Qfloor (percentileIndex [10; 20; 40] 25)))
       = Some below
    /\ nth_error [10; 20; 40] (Z.to_nat (Qceiling (percentileIndex [10; 20; 40] 25)))
       = Some above
    /\ hd 0 [10; 20; 40] <= below /\ below <= v /\ v <= above
    /\ above <= last [10; 20; 40] 0.
Proof.
  apply (percentile_between_neighbours [10; 20; 40] 25).
  - reflexivity.
  - discriminate.
  - vm_compute. discriminate.
  - vm_compute. discriminate.
Defined.


Lemma percentile_exact sorted p k x :
  nth_error sorted k = Some x ->
  percentileIndex sorted p == inject_Z (Z.of_nat k) ->
  exists v, percentile sorted p = Js.Fin v /\ v == x.
Proof.
  intros Hx Hidx. unfold percentile. fold (percentileIndex sorted p).
  destruct (Nat.eqb_spec (length sorted) 0) as [Hz|_].
  { destruct sorted; [destruct k; discriminate | discriminate]. }
  rewrite (Qfloor_comp _ _ Hidx), (Qceiling_comp _ _ Hidx), Qfloor_Z, Qceiling_Z.
  unfold elementAt.
  destruct (Z.ltb_spec (Z.of_nat k) 0); [lia|].
  rewrite Nat2Z.id, Hx. eexists. split; [reflexivity|]. ring.
Qed.

(** X13.  When the fractional rank [p/100 * (length - 1)] is a whole
    number [k] within the array, [percentile] returns the element at
    position [k], with no interpolation; the array need not be sorted. *)
Theorem percentile_at_exact_rank :
  forall sorted p k x,
    nth_error sorted k = Some x ->
    percentileIndex sorted p == inject_Z (Z.of_nat k) ->
    exists v, percentile sorted p = Js.Fin v /\ v == x.
Proof.
  intros sorted p k x Hx Hidx.
  assert (Hk : (k < length sorted)%nat).
  { apply nth_error_Some. congruence. }
  pose proof (Qfloor_comp _ _ Hidx) as Hfloor. rewrite Qfloor_Z in Hfloor.
  pose proof (Qceiling_comp _ _ Hidx) as Hceil. rewrite Qceiling_Z in Hceil.
  unfold percentile. fold (percentileIndex sorted p).
  destruct (Nat.eqb_spec (length sorted) 0) as [Hz|_]; [lia|].
  rewrite Hfloor, Hceil. unfold elementAt.
  destruct (Z.ltb_spec (Z.of_nat k) 0); [lia|].
  rewrite Nat2Z.id, Hx. eexists. split; [reflexivity|]. ring.
Qed.

Lemma percentile_at_exact_rank_witness :
  exists v, percentile [30; 10; 20] 50 = Js.Fin v /\ v == 10.
Proof.
  apply (percentile_at_exact_rank [30; 10; 20] 50 1 10).
  - reflexivity.
  - vm_compute. reflexivity.
Defined.


(** X14.  On a non-empty array, [percentile(sorted, 0)] is the first
    element and [percentile(sorted, 100)] is the last one. *)
Theorem percentile_0_and_100 :
  forall sorted,
    sorted <> [] ->
    (exists v, percentile sorted 0 = Js.Fin v /\ v == hd 0 sorted)
    /\ (exists v, percentile sorted 100 = Js.Fin v /\ v == last sorted 0).
Proof.
  intros sorted Hne. split.
  - apply (percentile_exact sorted 0 0 _ (nth_error_hd sorted Hne)).
    unfold percentileIndex. change (inject_Z (Z.of_nat 0)) with 0. rewrite div_100. ring.
  - apply (percentile_exact sorted 100 (length sorted - 1) _ (nth_error_last sorted Hne)).
    unfold percentileIndex.
    assert (Hn : (1 <= length sorted)%nat)
      by (destruct sorted; [congruence | cbn [length]; lia]).
    rewrite Nat2Z.inj_sub by exact Hn. unfold Z.sub. rewrite inject_Z_plus.
    change (inject_Z (- Z.of_nat 1)) with (-1). rewrite div_100. ring.
Qed.

Lemma percentile_0_and_100_witness :
  (exists v, percentile [10; 20; 40] 0 = Js.Fin v /\ v == hd 0 [10; 20; 40])
  /\ (exists v, percentile [10; 20; 40] 100 = Js.Fin v /\ v == last [10; 20; 40] 0).
Proof.
  apply (percentile_0_and_100 [10; 20; 40]). discriminate.
Defined.


Lemma Fin_inj (a b : Q) : Js.Fin a = Js.Fin b -> a = b.
Proof. intros H. now injection H. Qed.

(** X15.  On an array in ascending order [percentile] is monotone in
    [p]: for [0 <= p <= q <= 100] the [p]-th percentile is at most the
    [q]-th. *)
Theorem percentile_monotone :
  forall sorted p q v w,
    ascending sorted = true -> 0 <= p -> p <= q -> q <= 100 ->
    percentile sorted p = Js.Fin v -> percentile sorted q = Js.Fin w ->
    v <= w.
Proof.
  intros sorted p q v w Hasc Hp Hpq Hq Hv Hw.
  assert (Hcases : sorted = [] \/ sorted <> [])
    by (destruct sorted; [left; reflexivity | right; discriminate]).
  destruct Hcases as [-> | Hne].
  { cbn in Hv, Hw. injection Hv as <-. injection Hw as <-. apply Qle_refl. }
  destruct (percentile_in_range sorted p Hne Hp ltac:(lra))
    as (b1 & a1 & Hb1 & Ha1 & Hf1 & Hc1 & Hv1).
  destruct (percentile_in_range sorted q Hne ltac:(lra) Hq)
    as (b2 & a2 & Hb2 & Ha2 & Hf2 & Hc2 & Hv2).
  rewrite Hv in Hv1. rewrite Hw in Hv2.
  apply Fin_inj in Hv1. apply Fin_inj in Hv2. subst v w. clear Hv Hw.
  assert (Hij : percentileIndex sorted p <= percentileIndex sorted q).
  { destruct (percentileIndex_range sorted 100 Hne ltac:(lra) ltac:(lra)) as [H0 _].
    unfold percentileIndex in *.
    assert (Hm : 0 <= inject_Z (Z.of_nat (length sorted)) - 1).
    { assert (H1 : 100 / 100 == 1) by reflexivity. rewrite H1 in H0. lra. }
    apply Qmult_le_compat_r; [|exact Hm]. rewrite !div_100. lra. }
  set (i := percentileIndex sorted p) in *.
  set (j := percentileIndex sorted q) in *.
  destruct (floor_ceiling i) as ([Hfc1 Hcf1] & Hfl1 & Hlt1 & Hint1 & Hfrac1).
  destruct (floor_ceiling j) as ([Hfc2 Hcf2] & Hfl2 & Hlt2 & Hint2 & Hfrac2).
  pose proof (Qfloor_resp_le i j Hij) as Hff.
  assert (Hba1 : b1 <= a1)
    by (apply (ascending_nth sorted (Z.to_nat (Qfloor i)) (Z.to_nat (Qceiling i))
                 b1 a1 Hasc ltac:(lia) Hb1 Ha1)).
  assert (Hba2 : b2 <= a2)
    by (apply (ascending_nth sorted (Z.to_nat (Qfloor j)) (Z.to_nat (Qceiling j))
                 b2 a2 Hasc ltac:(lia) Hb2 Ha2)).
  destruct (convex_between b1 a1 (i - inject_Z (Qfloor i)) Hba1
              ltac:(lra) ltac:(lra)) as [Hlo1 Hhi1].
  destruct (convex_between b2 a2 (j - inject_Z (Qfloor j)) Hba2
              ltac:(lra) ltac:(lra)) as [Hlo2 Hhi2].
  destruct (Z.eq_dec (Qfloor i) (Qfloor j)) as [Heq|Hneq].
  - rewrite <- Heq in Hb2, Hfl2, Hlt2, Hfrac2, Hlo2 |- *.
    assert (b2 = b1) by congruence. subst b2.
    destruct (Qlt_le_dec (inject_Z (Qfloor i)) i) as [Hpos|Hzero].
    + assert (Hposj : inject_Z (Qfloor i) < j) by lra.
      rewrite (Hfrac1 Hpos) in Ha1. rewrite (Hfrac2 Hposj) in Ha2.
      assert (a2 = a1) by congruence. subst a2.
      assert (Hprod : 0 <= (a1 - b1) * (j - i))
        by (apply Qmult_le_0_compat; lra).
      clear - Hprod. set (f := inject_Z (Qfloor i)) in *.
      apply Qle_minus_iff.
      assert (Hring : b1 * (1 - (j - f)) + a1 * (j - f)
                      + - (b1 * (1 - (i - f)) + a1 * (i - f))
                      == (a1 - b1) * (j - i)) by ring.
      rewrite Hring. exact Hprod.
    + assert (Hw0 : i - inject_Z (Qfloor i) == 0) by lra.
      rewrite Hw0.
      assert (Hb : b1 * (1 - 0) + a1 * 0 == b1) by ring.
      rewrite Hb. exact Hlo2.
  - assert (Hmid : a1 <= b2).
    { apply (ascending_nth sorted (Z.to_nat (Qceiling i)) (Z.to_nat (Qfloor j))
               a1 b2 Hasc ltac:(lia) Ha1 Hb2). }
    apply Qle_trans with a1; [exact Hhi1|].
    apply Qle_trans with b2; [exact Hmid | exact Hlo2].
Qed.

Lemma percentile_monotone_witness :
  exists v w,
    percentile [10; 20; 40] 25 = Js.Fin v
    /\ percentile [10; 20; 40] 75 = Js.Fin w
    /\ v <= w.
Proof.
  eexists. eexists.
  split; [vm_compute; reflexivity|]. split; [vm_compute; reflexivity|].
  apply (percentile_monotone [10; 20; 40] 25 75).
  - reflexivity.
  - vm_compute. discriminate.
  - vm_compute. discriminate.
  - vm_compute. discriminate.
  - vm_compute. reflexivity.
  - vm_compute. reflexivity.
Defined.


(** X16.  Outside [0, 100] there is no clamping: on an array of two or
    more elements a negative [p] or a [p] above 100 reads past an end of the
    array, and the result is [NaN]. *)
Theorem percentile_outside_range_is_NaN :
  forall sorted p,
    (2 <= length sorted)%nat -> p < 0 \/ 100 < p ->
    percentile sorted p = Js.NaN.
Proof.
  intros sorted p Hlen Hp. unfold percentile. fold (percentileIndex sorted p).
  destruct (Nat.eqb_spec (length sorted) 0) as [Hz|_]; [lia|].
  assert (Hout : percentileIndex sorted p < 0
                 \/ inject_Z (Z.of_nat (length sorted) - 1)
                    < percentileIndex sorted p).
  { assert (Hn : (2 <= Z.of_nat (length sorted))%Z) by lia.
    rewrite Zle_Qle in Hn. change (inject_Z 2) with 2 in Hn.
    unfold percentileIndex. rewrite div_100.
    unfold Z.sub. rewrite inject_Z_plus, inject_Z_opp. change (inject_Z 1) with 1.
    set (n := inject_Z (Z.of_nat (length sorted))) in *. clearbody n.
    destruct Hp as [Hneg|Hbig]; [left|right].
    - assert (Hprod : 0 < (- (p * (1 # 100))) * (n - 1))
        by (apply Qmult_lt_0_compat; lra).
      assert (E : p * (1 # 100) * (n - 1) == - ((- (p * (1 # 100))) * (n - 1)))
        by ring.
      rewrite E. set (z := (- (p * (1 # 100))) * (n - 1)) in *.
      clearbody z. lra.
    - assert (Hprod : 0 < (p * (1 # 100) - 1) * (n - 1))
        by (apply Qmult_lt_0_compat; lra).
      assert (E : p * (1 # 100) * (n - 1)
                  == (p * (1 # 100) - 1) * (n - 1) + (n - 1)) by ring.
      rewrite E. set (z := (p * (1 # 100) - 1) * (n - 1)) in *.
      clearbody z. lra. }
  generalize dependent (percentileIndex sorted p). intros index Hout.
  pose proof (Qfloor_le index) as Hfl. pose proof (Qle_ceiling index) as Hce.
  destruct Hout as [Hi|Hi].
  - assert (Hf : (Qfloor index < 0)%Z).
    { rewrite Zlt_Qlt. change (inject_Z 0) with 0. lra. }
    unfold elementAt. destruct (Z.ltb_spec (Qfloor index) 0); [reflexivity | lia].
  - assert (Hc : (Z.of_nat (length sorted) - 1 < Qceiling index)%Z).
    { rewrite Zlt_Qlt. lra. }
    assert (Hnone : elementAt sorted (Qceiling index) = None).
    { unfold elementAt. destruct (Z.ltb_spec (Qceiling index) 0); [reflexivity|].
      apply nth_error_None. lia. }
    rewrite Hnone. destruct (elementAt sorted (Qfloor index)); reflexivity.
Qed.

Lemma percentile_outside_range_is_NaN_witness :
  percentile [10; 20; 40] 101 = Js.NaN.
Proof.
  apply (percentile_outside_range_is_NaN [10; 20; 40] 101).
  - cbn [length]. lia.
  - right. vm_compute. reflexivity.
Defined.


(** X17.  The short arrays: the percentile of an empty array is 0, and
    the percentile of a one-element array is that element, for every [p],
    outside [0, 100] as well. *)
Theorem percentile_of_short_lists :
  forall p,
    percentile [] p = Js.Fin 0
    /\ (forall x, exists v, percentile [x] p = Js.Fin v /\ v == x).
Proof.
  intros p. split; [reflexivity|]. intros x.
  apply (percentile_exact [x] p 0 x); [reflexivity|].
  unfold percentileIndex. cbn [length]. change (inject_Z (Z.of_nat 1)) with 1.
  change (inject_Z (Z.of_nat 0)) with 0. ring.
Qed.

(** ** Stochastic mode without volatility *)

Lemma year1Override_value inputs i t t' :
  t == t' -> year1Override inputs i t == year1Override inputs i t'.
Proof.
  intros H. unfold year1Override.
  destruct (Nat.eqb i 0 && Js.gtb (Js.orZero (startingWithdrawal inputs)) 0);
    [reflexivity | exact H].
Qed.

Lemma clampSpending_value inputs i t t' :
  t == t' -> clampSpending inputs i t == clampSpending inputs i t'.
Proof.
  intros H. unfold clampSpending, minCeiling.
  destruct (inflationAdjustedMaxSpending inputs i); rewrite H; reflexivity.
Qed.

Lemma isZero_value (a b : Q) : a == b -> Qeq_bool a 0 = Qeq_bool b 0.
Proof.
  intros H. destruct (Qeq_bool a 0) eqn:H1, (Qeq_bool b 0) eqn:H2; trivial.
  - apply Qeq_bool_iff in H1. apply Qeq_bool_neq in H2. exfalso. apply H2.
    rewrite <- H. exact H1.
  - apply Qeq_bool_iff in H2. apply Qeq_bool_neq in H1. exfalso. apply H1.
    rewrite H. exact H2.
Qed.

Lemma rate_value (w w' p p' c : Q) (sign : bool) :
  w == w' -> p == p' ->
  Js.num_gtb (Js.scale (Js.div w p sign) 100) c
  = Js.num_gtb (Js.scale (Js.div w' p' sign) 100) c
  /\ Js.num_ltb (Js.scale (Js.div w p sign) 100) c
     = Js.num_ltb (Js.scale (Js.div w' p' sign) 100) c.
Proof.
  intros Hw Hp. unfold Js.div.
  rewrite <- (isZero_value p p' Hp). destruct (Qeq_bool p 0) eqn:Hp0.
  - assert (Hg : Js.gtb w 0 = Js.gtb w' 0) by (rewrite Hw; reflexivity).
    assert (Hl : Js.ltb w 0 = Js.ltb w' 0) by (rewrite Hw; reflexivity).
    rewrite <- Hg, <- Hl. split; reflexivity.
  - apply Qeq_bool_neq in Hp0. cbn [Js.scale Js.num_gtb Js.num_ltb].
    assert (Hq : w / p * 100 == w' / p' * 100) by (rewrite Hw, Hp; reflexivity).
    split; [apply gtb_proper | apply ltb_proper]; (exact Hq || reflexivity).
Qed.

Lemma applyGuardrails_value inputs i (w w' p p' : Q) (sign : bool) :
  w == w' -> p == p' ->
  applyGuardrails inputs i (Js.scale (Js.div w p sign) 100) p w
  == applyGuardrails inputs i (Js.scale (Js.div w' p' sign) 100) p' w'.
Proof.
  intros Hw Hp. unfold applyGuardrails.
  destruct (negb (Nat.eqb i 0 && Js.isPositive (startingWithdrawal inputs)));
    [|exact Hw].
  destruct (rate_value w w' p p' upperGuardrail sign Hw Hp) as [-> _].
  destruct (rate_value w w' p p' lowerGuardrail sign Hw Hp) as [_ ->].
  assert (Hg : Js.gtb p 0 = Js.gtb p' 0) by (rewrite Hp; reflexivity).
  rewrite <- Hg.
  destruct (Js.num_gtb _ upperGuardrail); [rewrite Hw; reflexivity|].
  destruct (Js.num_ltb _ lowerGuardrail && Js.gtb p 0);
    [rewrite Hw; reflexivity | exact Hw].
Qed.

Lemma targetOf_value s inputs i st st' :
  Loop.portfolio st == Loop.portfolio st' ->
  Loop.withdrawal st == Loop.withdrawal st'
  /\ Loop.negativeZero st = Loop.negativeZero st' ->
  targetOf s inputs i st == targetOf s inputs i st'.
Proof.
  intros Hp [Hw Hz]. destruct s; cbn [targetOf].
  - destruct (Js.gtb (Js.orZero (maxSpending inputs)) 0);
      [rewrite Hw; reflexivity | exact Hw].
  - apply clampSpending_value, year1Override_value. rewrite Hp. reflexivity.
  - apply clampSpending_value, year1Override_value. rewrite Hp. reflexivity.
  - rewrite Hz. apply clampSpending_value, applyGuardrails_value; assumption.
  - apply clampSpending_value, year1Override_value. rewrite Hp. reflexivity.
Qed.

Lemma carriedOf_value s inputs i st st' :
  Loop.portfolio st == Loop.portfolio st' ->
  Loop.withdrawal st == Loop.withdrawal st'
  /\ Loop.negativeZero st = Loop.negativeZero st' ->
  carriedOf s inputs i st == carriedOf s inputs i st'.
Proof.
  intros Hp Hw. pose proof (targetOf_value s inputs i st st' Hp Hw) as Ht.
  destruct s; cbn [carriedOf]; try apply Hw; rewrite Ht; reflexivity.
Qed.

Lemma netOf_value inputs i t t' : t == t' -> netOf inputs i t == netOf inputs i t'.
Proof. intros H. unfold netOf. rewrite H. reflexivity. Qed.

Lemma yearReturn_without_volatility inputs e e' :
  volatility inputs == 0 ->
  yearReturn inputs false e == yearReturn inputs true e'.
Proof.
  intros Hvol. unfold yearReturn, generateReturn, randomNormal. cbn [fst].
  rewrite Hvol. rewrite !div_100. ring.
Qed.

Lemma closing_value inputs net net' st st' e e' :
  volatility inputs == 0 ->
  Loop.portfolio st == Loop.portfolio st' ->
  net == net' ->
  closing inputs false net st e == closing inputs true net' st' e'.
Proof.
  intros Hvol Hp Hn. unfold closing, afterWithdrawal.
  rewrite (yearReturn_without_volatility inputs e e' Hvol).
  assert (Hd : Loop.portfolio st - net == Loop.portfolio st' - net')
    by (rewrite Hp, Hn; reflexivity).
  rewrite Hd. destruct (Js.ltb (Loop.portfolio st' - net') 0);
    [reflexivity | rewrite Hd; reflexivity].
Qed.

Lemma closingNegativeZero_value inputs net net' st st' e e' :
  volatility inputs == 0 ->
  Loop.portfolio st == Loop.portfolio st' ->
  Loop.negativeZero st = Loop.negativeZero st' ->
  net == net' ->
  closingNegativeZero inputs false net st e
  = closingNegativeZero inputs true net' st' e'.
Proof.
  intros Hvol Hp Hz Hn. unfold closingNegativeZero, negativeZeroAfterWithdrawal.
  rewrite (isZero_value _ _ (closing_value inputs net net' st st' e e' Hvol Hp Hn)).
  assert (Hd : Js.ltb (Loop.portfolio st - net) 0
               = Js.ltb (Loop.portfolio st' - net') 0)
    by (rewrite Hp, Hn; reflexivity).
  assert (Hg : Js.ltb (1 + yearReturn inputs false e) 0
               = Js.ltb (1 + yearReturn inputs true e') 0)
    by (rewrite (yearReturn_without_volatility inputs e e' Hvol); reflexivity).
  rewrite Hd, Hg, Hz, (isZero_value _ _ Hp), (isZero_value _ _ Hn). reflexivity.
Qed.

Lemma modes_agree_at s inputs e e' k :
  volatility inputs == 0 ->
  let st := fst (stateAt s inputs false e k) in
  let st' := fst (stateAt s inputs true e' k) in
  Loop.portfolio st == Loop.portfolio st'
  /\ (Loop.withdrawal st == Loop.withdrawal st'
      /\ Loop.negativeZero st = Loop.negativeZero st')
  /\ Loop.ruined st = Loop.ruined st'
  /\ Loop.ruinAge st = Loop.ruinAge st'
  /\ sumWithdrawals (Loop.yearResults st) == sumWithdrawals (Loop.yearResults st')
  /\ sameYear (recordAt s inputs false e k) (recordAt s inputs true e' k)
  /\ recordedTarget (recordAt s inputs false e k)
     == recordedTarget (recordAt s inputs true e' k).
Proof.
  intros Hvol. cbn zeta.
  assert (Hrec : forall k,
            Loop.portfolio (fst (stateAt s inputs false e k))
            == Loop.portfolio (fst (stateAt s inputs true e' k)) ->
            Loop.withdrawal (fst (stateAt s inputs false e k))
            == Loop.withdrawal (fst (stateAt s inputs true e' k))
            /\ Loop.negativeZero (fst (stateAt s inputs false e k))
               = Loop.negativeZero (fst (stateAt s inputs true e' k)) ->
            sameYear (recordAt s inputs false e k) (recordAt s inputs true e' k)
            /\ recordedTarget (recordAt s inputs false e k)
               == recordedTarget (recordAt s inputs true e' k)).
  { intros j Hp Hw.
    pose proof (targetOf_value s inputs j _ _ Hp Hw) as Ht.
    pose proof (netOf_value inputs j _ _ Ht) as Hn.
    assert (Hend : Year.portfolioEnd (recordAt s inputs false e j)
                   == Year.portfolioEnd (recordAt s inputs true e' j)).
    { rewrite !record_portfolioEnd, !record_withdrawal.
      apply closing_value; assumption. }
    unfold sameYear.
    rewrite !record_year, !record_age, !record_portfolioStart, !record_returnPct,
      !recordedTarget_at, !record_withdrawal, !record_ruined.
    repeat split; try assumption.
    - rewrite (yearReturn_without_volatility inputs _
                 (snd (stateAt s inputs true e' j)) Hvol). reflexivity.
    - rewrite Hend. reflexivity. }
  induction k as [|k (IHp & IHw & IHr & IHa & IHs & IHy & _)].
  - assert (Hp : Loop.portfolio (fst (stateAt s inputs false e 0))
                 == Loop.portfolio (fst (stateAt s inputs true e' 0)))
      by reflexivity.
    assert (Hw : Loop.withdrawal (fst (stateAt s inputs false e 0))
                 == Loop.withdrawal (fst (stateAt s inputs true e' 0))
                 /\ Loop.negativeZero (fst (stateAt s inputs false e 0))
                    = Loop.negativeZero (fst (stateAt s inputs true e' 0)))
      by (split; reflexivity).
    split; [exact Hp|]. split; [exact Hw|].
    split; [reflexivity|]. split; [reflexivity|]. split; [reflexivity|].
    apply (Hrec 0%nat Hp Hw).
  - destruct IHy as (_ & Hage & _ & _ & Hwd & Hend & Hruin).
    assert (Hp : Loop.portfolio (fst (stateAt s inputs false e (S k)))
                 == Loop.portfolio (fst (stateAt s inputs true e' (S k))))
      by (rewrite !step_portfolio; exact Hend).
    assert (Hw : Loop.withdrawal (fst (stateAt s inputs false e (S k)))
                 == Loop.withdrawal (fst (stateAt s inputs true e' (S k)))
                 /\ Loop.negativeZero (fst (stateAt s inputs false e (S k)))
                    = Loop.negativeZero (fst (stateAt s inputs true e' (S k)))).
    { split.
      - rewrite !step_withdrawal. apply carriedOf_value; assumption.
      - rewrite !step_negativeZero.
        apply closingNegativeZero_value; try assumption; apply IHw. }
    split; [exact Hp|]. split; [exact Hw|].
    split; [rewrite !step_ruined, IHr, Hruin; reflexivity|].
    split; [rewrite !step_ruinAge, IHr, IHa, Hruin, Hage; reflexivity|].
    split; [rewrite !step_yearResults, !sumWithdrawals_snoc, IHs, Hwd; reflexivity|].
    apply (Hrec (S k) Hp Hw).
Qed.

Lemma Forall2_map_seq (f g : nat -> Year.t) (n : nat) :
  (forall k, sameYear (f k) (g k)) ->
  forall start, Forall2 sameYear (map f (seq start n)) (map g (seq start n)).
Proof.
  intros H. induction n as [|n IH]; intros start; cbn.
  - constructor.
  - constructor; [apply H | apply IH].
Qed.

(** X18.  With [volatility] 0 the mode makes no difference: a stochastic
    run of any strategy, whatever deviates it draws, reports year for year
    the same balances, returns, withdrawals, ruin flags and targets as the
    deterministic run, and the same final balance, total, ruin flag and
    ruin age. *)
Theorem zero_volatility_makes_modes_agree :
  forall s inputs e e',
    volatility inputs == 0 ->
    sameResult (fst (run s inputs false e)) (fst (run s inputs true e'))
    /\ (forall k r r',
          nth_error (Result.years (fst (run s inputs false e))) k = Some r ->
          nth_error (Result.years (fst (run s inputs true e'))) k = Some r' ->
          recordedTarget r == recordedTarget r').
Proof.
  intros s inputs e e' Hvol. split; [unfold sameResult; split|].
  - rewrite !run_years. apply Forall2_map_seq.
    intros k. apply (modes_agree_at s inputs e e' k Hvol).
  - rewrite !run_stateAt.
    cbn [fst finish Result.finalBalance Result.totalWithdrawals Result.ruined
         Result.ruinAge].
    destruct (modes_agree_at s inputs e e' (horizon inputs) Hvol)
      as (Hp & _ & Hr & Ha & Hs & _).
    repeat split; assumption.
  - intros k r r' Hr Hr'.
    apply (proj1 (run_nth s inputs false e k r)) in Hr.
    apply (proj1 (run_nth s inputs true e' k r')) in Hr'.
    destruct Hr as [_ ->]. destruct Hr' as [_ ->].
    apply (modes_agree_at s inputs e e' k Hvol).
Qed.

Lemma zero_volatility_makes_modes_agree_witness :
  sameResult (fst (run Guardrails Sample.crashInputs false (Sample.constant 3)))
    (fst (run Guardrails Sample.crashInputs true Sample.quiet)).
Proof.
  apply (zero_volatility_makes_modes_agree Guardrails Sample.crashInputs
           (Sample.constant 3) Sample.quiet).
  vm_compute. reflexivity.
Defined.

(** ** The first runner's constant percent *)

Lemma sumWithdrawals_same l l' :
  Forall2 sameYear l l' -> sumWithdrawals l == sumWithdrawals l'.
Proof.
  unfold sumWithdrawals. intros H.
  assert (Hgen : forall a a', a == a' ->
            fold_left (fun sum y => sum + Year.withdrawal y) l a
            == fold_left (fun sum y => sum + Year.withdrawal y) l' a').
  { induction H as [|r r' l l' Hr _ IH]; intros a a' Ha; cbn [fold_left].
    - exact Ha.
    - apply IH. destruct Hr as (_ & _ & _ & _ & Hw & _). rewrite Ha, Hw. reflexivity. }
  apply Hgen. reflexivity.
Qed.

Lemma sameState_result st st' :
  sameState st st' -> sameResult (finish st) (finish st').
Proof.
  intros (Hp & Hr & Ha & Hy). unfold sameResult, finish. cbn.
  repeat split; try assumption. apply sumWithdrawals_same. exact Hy.
Qed.

(** One year of a loop that ends in the shared lines, on two states that
    stand for the same run and with the same net withdrawal. *)
Lemma closeYear_same inputs inputs' det age net net' record record' carried carried'
    st st' e :
  expectedReturn inputs = expectedReturn inputs' ->
  volatility inputs = volatility inputs' ->
  sameState st st' ->
  net == net' ->
  (forall ret p p', p == p' -> sameYear (record ret p) (record' ret p')) ->
  sameState (fst (closeYear inputs det age net record carried st e))
    (fst (closeYear inputs' det age net' record' carried' st' e))
  /\ snd (closeYear inputs det age net record carried st e)
     = snd (closeYear inputs' det age net' record' carried' st' e).
Proof.
  intros Hret Hvol (Hp & Hr & Ha & Hy) Hn Hrec.
  rewrite !closeYear_eq. cbn [fst snd].
  assert (Hyr : yearReturn inputs det e = yearReturn inputs' det e)
    by (unfold yearReturn; now rewrite Hret, Hvol).
  assert (Hc : closing inputs det net st e == closing inputs' det net' st' e).
  { unfold closing, afterWithdrawal. rewrite Hyr.
    assert (Hd : Loop.portfolio st - net == Loop.portfolio st' - net')
      by (rewrite Hp, Hn; reflexivity).
    rewrite Hd. destruct (Js.ltb (Loop.portfolio st' - net') 0);
      [reflexivity | rewrite Hd; reflexivity]. }
  assert (Hl : Js.leb (closing inputs det net st e) 0
               = Js.leb (closing inputs' det net' st' e) 0)
    by (rewrite Hc; reflexivity).
  split.
  - unfold sameState. cbn [Loop.portfolio Loop.ruined Loop.ruinAge Loop.yearResults].
    split; [exact Hc|]. split; [now rewrite Hr, Hl|].
    split; [now rewrite Hr, Ha, Hl|].
    apply Forall2_app; [exact Hy|]. constructor; [|constructor].
    rewrite Hyr. apply Hrec. exact Hc.
  - unfold entropyAfter. now rewrite Hret, Hvol.
Qed.

Lemma forLoop_same body body' :
  (forall i st st' e,
      sameState st st' ->
      sameState (fst (body i st e)) (fst (body' i st' e))
      /\ snd (body i st e) = snd (body' i st' e)) ->
  forall n i st st' e,
    sameState st st' ->
    sameState (fst (forLoop body n i st e)) (fst (forLoop body' n i st' e))
    /\ snd (forLoop body n i st e) = snd (forLoop body' n i st' e).
Proof.
  intros Hstep n. induction n as [|n IH]; intros i st st' e Hst; cbn [forLoop].
  - split; [exact Hst | reflexivity].
  - destruct (Hstep i st st' e Hst) as [H1 H2].
    destruct (body i st e) as [st1 e1]. destruct (body' i st' e) as [st1' e1'].
    cbn [fst snd] in H1, H2. subst e1'. apply IH. exact H1.
Qed.

Lemma make_same i age pStart pStart' ret net net' pEnd pEnd'
    ss base target vpw le rmd rate ss' base' target' vpw' le' rmd' rate' :
  pStart == pStart' -> net == net' -> pEnd == pEnd' ->
  sameYear (Year.make i age pStart ret net pEnd ss base target vpw le rmd rate)
    (Year.make i age pStart' ret net' pEnd' ss' base' target' vpw' le' rmd' rate').
Proof.
  intros Hs Hn He. unfold sameYear, Year.make. cbn.
  repeat split; try assumption; try reflexivity.
  rewrite He. reflexivity.
Qed.

Lemma runner_percent_step inputs minSp maxSp start det i st st' e :
  Js.orZero start <= 0 ->
  Js.orZero maxSp <= 0 ->
  Js.orZero minSp <= 0 ->
  0 <= TestRunner.Inputs.socialSecurity inputs ->
  -100 <= TestRunner.Inputs.inflationRate inputs ->
  sameState st st' ->
  sameState (fst (TestRunner.bodyConstantPercent inputs det i st e))
    (fst (bodyConstantPercent (TestRunner.withSpendingKeys inputs minSp maxSp start)
            det i st' e))
  /\ snd (TestRunner.bodyConstantPercent inputs det i st e)
     = snd (bodyConstantPercent (TestRunner.withSpendingKeys inputs minSp maxSp start)
              det i st' e).
Proof.
  intros Hsw Hmax Hmin Hss Hinfl Hst.
  set (inputs' := TestRunner.withSpendingKeys inputs minSp maxSp start).
  assert (Hp : Loop.portfolio st == Loop.portfolio st') by apply Hst.
  assert (Hnet :
            Js.max 0 (Loop.portfolio st * (4 / 100)
                      - ssAt (TestRunner.complete inputs)
                          (TestRunner.Inputs.retirementAge inputs + Z.of_nat i)%Z)
            + (if ((Z.of_nat i + 1) mod 5 =? 0)%Z
               then TestRunner.Inputs.oneTimeExpense inputs
                    * Js.pow (1 + TestRunner.Inputs.inflationRate inputs / 100)
                        (Z.of_nat i)
               else 0)
            == netOf inputs' i
                 (clampSpending inputs' i
                    (year1Override inputs' i (Loop.portfolio st' * (4 / 100))))).
  { rewrite (year1Override_unset inputs' i _ Hsw).
    rewrite (clampSpending_floor_only inputs' i _ Hmax).
    unfold netOf, oneTimeExpenseThisYear.
    change (ssAt inputs' (ageAt inputs' i))
      with (ssAt (TestRunner.complete inputs)
              (TestRunner.Inputs.retirementAge inputs + Z.of_nat i)%Z).
    change (Js.orZero (oneTimeExpense inputs'))
      with (TestRunner.Inputs.oneTimeExpense inputs).
    change (inflationMultiplier inputs')
      with (1 + TestRunner.Inputs.inflationRate inputs / 100).
    apply Qplus_comp; [|reflexivity].
    assert (Hfloor : inflationAdjustedMinSpending inputs' i <= 0).
    { unfold inflationAdjustedMinSpending.
      pose proof (pow_nonneg (inflationMultiplier inputs') (Z.of_nat i)
                    (inflationMultiplier_nonneg inputs' Hinfl)).
      change (Js.orZero (minSpending inputs')) with (Js.orZero minSp). nra. }
    pose proof (ssAt_nonneg inputs'
                  (TestRunner.Inputs.retirementAge inputs + Z.of_nat i)%Z Hss Hinfl)
      as Hssi.
    change (ssAt inputs' (TestRunner.Inputs.retirementAge inputs + Z.of_nat i)%Z)
      with (ssAt (TestRunner.complete inputs)
              (TestRunner.Inputs.retirementAge inputs + Z.of_nat i)%Z) in Hssi.
    set (ss := ssAt (TestRunner.complete inputs) _) in *.
    set (floor := inflationAdjustedMinSpending inputs' i) in *.
    rewrite Hp. set (t := Loop.portfolio st' * (4 / 100)).
    clearbody ss floor t.
    destruct (max_cases t floor) as [[? ->]|[? ->]];
      destruct (max_cases 0 (t - ss)) as [[? ->]|[? ->]];
      try destruct (max_cases 0 (floor - ss)) as [[? ->]|[? ->]]; lra. }
  unfold TestRunner.bodyConstantPercent, bodyConstantPercent. cbn zeta.
  apply closeYear_same; try reflexivity; try assumption.
  intros ret p p' Hpp. apply make_same; assumption.
Qed.

(** X19.  The [strategyConstantPercent] of the first test runner has no
    floor, no ceiling and no year-1 override, and its records have no
    [targetWithdrawal] key.  On an input object that has [oneTimeExpense],
    whose [startingWithdrawal], [maxSpending] and [minSpending] are absent
    or not positive, with a non-negative Social Security benefit and an
    inflation rate of at least -100, it reports the same run as the
    comprehensive suite's [strategyConstantPercent]: year for year the same
    age, balances, return, withdrawal and ruin flag, the same final
    balance, total, ruin flag and ruin age, and the same use of the entropy
    source, in either mode. *)
Theorem first_runner_constantPercent_agrees :
  forall inputs minSp maxSp start det e,
    Js.orZero start <= 0 ->
    Js.orZero maxSp <= 0 ->
    Js.orZero minSp <= 0 ->
    0 <= TestRunner.Inputs.socialSecurity inputs ->
    -100 <= TestRunner.Inputs.inflationRate inputs ->
    sameResult (fst (TestRunner.strategyConstantPercent inputs det e))
      (fst (strategyConstantPercent
              (TestRunner.withSpendingKeys inputs minSp maxSp start) det e))
    /\ snd (TestRunner.strategyConstantPercent inputs det e)
       = snd (strategyConstantPercent
                (TestRunner.withSpendingKeys inputs minSp maxSp start) det e).
Proof.
  intros inputs minSp maxSp start det e Hsw Hmax Hmin Hss Hinfl.
  unfold TestRunner.strategyConstantPercent, strategyConstantPercent.
  change (horizon (TestRunner.withSpendingKeys inputs minSp maxSp start))
    with (Z.to_nat (TestRunner.Inputs.planningAge inputs
                    - TestRunner.Inputs.retirementAge inputs)).
  set (n := Z.to_nat _).
  destruct (forLoop_same (TestRunner.bodyConstantPercent inputs det)
              (bodyConstantPercent
                 (TestRunner.withSpendingKeys inputs minSp maxSp start) det)
              (fun i st st' e0 =>
                 runner_percent_step inputs minSp maxSp start det i st st' e0
                   Hsw Hmax Hmin Hss Hinfl)
              n 0%nat (initialState (TestRunner.complete inputs) 0)
              (initialState (TestRunner.withSpendingKeys inputs minSp maxSp start) 0)
              e) as [Hst He].
  { unfold sameState. cbn. repeat split; try reflexivity. constructor. }
  destruct (forLoop _ n 0 (initialState (TestRunner.complete inputs) 0) e)
    as [st1 e1].
  destruct (forLoop _ n 0 (initialState (TestRunner.withSpendingKeys _ _ _ _) 0) e)
    as [st2 e2].
  cbn [fst snd] in *. split; [apply sameState_result; exact Hst | exact He].
Qed.

Lemma first_runner_constantPercent_agrees_witness :
  sameResult
    (fst (TestRunner.strategyConstantPercent Sample.runnerInputs false
            (Sample.constant 2)))
    (fst (strategyConstantPercent
            (TestRunner.withSpendingKeys Sample.runnerInputs None None None)
            false (Sample.constant 2))).
Proof.
  apply (first_runner_constantPercent_agrees Sample.runnerInputs None None None
           false (Sample.constant 2)).
  - vm_compute. discriminate.
  - vm_compute. discriminate.
  - vm_compute. discriminate.
  - vm_compute. discriminate.
  - vm_compute. discriminate.
Defined.
